(** * go-track API: the location update and resolution core

    A shallow embedding of [go-track-api/server.js] (the revision that has
    the flag path): the route [app.post('/location', ...)], its helper
    [handleFlaggedRequest] and the error middleware that Express runs when a
    route handler throws.  The route of the earlier revision, which the file
    also holds (lines 59-93), is embedded beside it and compared with it.

    Request bodies and stored documents are JSON values as [JSON.parse]
    delivers them.  JavaScript objects are finite maps from property names
    to values ([gmap string value]), so two objects with the same properties
    are equal whatever the order in which the properties were written.

    Numbers.  The source computes on IEEE doubles.  Here a number is an
    exact integer, plus or minus infinity, or [NaN]; rounding, fractions and
    overflow are outside the model.  [NaN] is what the source computes as
    soon as an operand is [undefined]; the infinities are what [JSON.parse]
    delivers for a literal such as [1e999].

    Coercions.  [+] and [*] are modelled on [undefined], [null], booleans and
    numbers.  Operands that JavaScript would first turn into strings
    (strings, arrays, objects) are outside the modelled fragment, and so is
    a template literal over an array or an object: such a run ends in the
    outcome [Unsupported], never in a made-up result. *)

From stdpp Require Import gmap strings list fin_maps pretty.
From Stdlib Require Import ZArith Lia.

Set Warnings "-register-all".
Open Scope Z_scope.

(** ** JSON values *)

Inductive number :=
| NaN
| Finite (z : Z)
| Infinity (negative : bool).

Inductive value :=
| VUndefined
| VNull
| VBool (b : bool)
| VNum (n : number)
| VStr (s : string)
| VArr (items : list value)
| VObj (fields : gmap string value).

Global Instance value_inhabited : Inhabited value := populate VUndefined.

(** ** What a run can end in *)

(** [TypeError]: reading [base.property] where [base] is [null] or
    [undefined].  [Rejection]: a promise of the persistence gateway was
    rejected with that message. *)
Inductive js_error :=
| TypeError (property : string) (base : value)
| Rejection (message : string).

Inductive res (A : Type) :=
| Ok (a : A)
| Throw (e : js_error)
| Unsupported.
Arguments Ok {A} a.
Arguments Throw {A} e.
Arguments Unsupported {A}.

Global Instance res_ret : MRet res := λ A a, Ok a.
Global Instance res_bind : MBind res := λ A B f r,
  match r with
  | Ok a => f a
  | Throw e => Throw e
  | Unsupported => Unsupported
  end.
Global Instance res_fmap : FMap res := λ A B f r,
  match r with
  | Ok a => Ok (f a)
  | Throw e => Throw e
  | Unsupported => Unsupported
  end.

(** ** JavaScript operators used by the handlers *)

(** [!!v] *)
Definition truthy (v : value) : bool :=
  match v with
  | VUndefined | VNull => false
  | VBool b => b
  | VNum NaN => false
  | VNum (Finite z) => negb (z =? 0)
  | VNum (Infinity _) => true
  | VStr s => negb (String.eqb s "")
  | VArr _ | VObj _ => true
  end.

(** [a || b] *)
Definition js_or (a b : value) : value := if truthy a then a else b.

(** [base.key], for the property names the source reads ([flag],
    [location], [devices], [longitude], [latitude], [accuracy], [distance],
    [id], [multi]): none of them is a built-in property of arrays, strings,
    numbers or booleans, so on those the read gives [undefined]. *)
Definition get_prop (key : string) (base : value) : res value :=
  match base with
  | VUndefined | VNull => Throw (TypeError key base)
  | VObj fields => Ok (fields !!! key)
  | VBool _ | VNum _ | VStr _ | VArr _ => Ok VUndefined
  end.

(** The same read where it cannot throw; used to state properties. *)
Definition field (key : string) (base : value) : value :=
  match base with
  | VObj fields => fields !!! key
  | _ => VUndefined
  end.

(** [ToNumber] on the modelled fragment. *)
Definition to_number (v : value) : option number :=
  match v with
  | VUndefined => Some NaN
  | VNull => Some (Finite 0)
  | VBool b => Some (Finite (if b then 1 else 0))
  | VNum n => Some n
  | VStr _ | VArr _ | VObj _ => None
  end.

(** [a + b] on numbers: opposite infinities give [NaN]. *)
Definition num_add (a b : number) : number :=
  match a, b with
  | Finite x, Finite y => Finite (x + y)
  | Finite _, Infinity s => Infinity s
  | Infinity s, Finite _ => Infinity s
  | Infinity s, Infinity s' => if Bool.eqb s s' then Infinity s else NaN
  | _, _ => NaN
  end.

(** [a * b] on numbers: zero times an infinity gives [NaN]. *)
Definition num_mul (a b : number) : number :=
  match a, b with
  | Finite x, Finite y => Finite (x * y)
  | Finite x, Infinity s => if x =? 0 then NaN else Infinity (xorb s (x <? 0))
  | Infinity s, Finite x => if x =? 0 then NaN else Infinity (xorb s (x <? 0))
  | Infinity s, Infinity s' => Infinity (xorb s s')
  | _, _ => NaN
  end.

(** [a <= b] on numbers: false as soon as one side is [NaN]. *)
Definition num_le (a b : number) : bool :=
  match a, b with
  | Finite x, Finite y => x <=? y
  | Infinity true, Finite _ => true
  | Infinity true, Infinity _ => true
  | Finite _, Infinity false => true
  | Infinity false, Infinity false => true
  | _, _ => false
  end.

(** [Number.isFinite] *)
Definition finite (n : number) : bool :=
  match n with
  | Finite _ => true
  | _ => false
  end.

Definition arith (op : number → number → number) (a b : value) : res value :=
  match to_number a, to_number b with
  | Some x, Some y => Ok (VNum (op x y))
  | _, _ => Unsupported
  end.

(** [a + b] and [a * b] *)
Definition js_add : value → value → res value := arith num_add.
Definition js_mul : value → value → res value := arith num_mul.

(** [`${v}`]: the string form of a string, a boolean, [null], [undefined]
    and a number (an integer in plain decimal, which is what JavaScript
    prints below 10^21).  The string forms of arrays and objects are not
    modelled. *)
Definition template (v : value) : res string :=
  match v with
  | VStr s => Ok s
  | VBool b => Ok (if b then "true" else "false")
  | VNull => Ok "null"
  | VUndefined => Ok "undefined"
  | VNum NaN => Ok "NaN"
  | VNum (Infinity negative) => Ok (if negative then "-Infinity" else "Infinity")
  | VNum (Finite z) => if Z.abs z <? 10 ^ 21 then Ok (pretty z) else Unsupported
  | VArr _ | VObj _ => Unsupported
  end.

(** ** lodash *)

(** [_.isArray] *)
Definition isArray (v : value) : bool :=
  match v with
  | VArr _ => true
  | _ => false
  end.

(** What [_.defaultsDeep] leaves in a destination property that holds
    [objValue] when the source holds [srcValue] there: an [undefined]
    destination takes (a copy of) the source value, two objects are merged
    property by property, and any other destination value stays.  Arrays
    meeting arrays or objects, which lodash merges index by index, are not
    modelled.  A property named like a member of [Object.prototype]
    ([toString], [constructor] and the like) is treated like any other
    property. *)
Fixpoint defaultsValue (objValue srcValue : value) {struct srcValue} : res value :=
  match objValue with
  | VUndefined => Ok srcValue
  | VObj ofields =>
      match srcValue with
      | VObj sfields =>
          VObj <$> map_fold
            (λ key sv (acc : res (gmap string value)),
               object ← acc;
               v ← defaultsValue (object !!! key) sv;
               Ok (<[key := v]> object))
            (Ok ofields) sfields
      | VArr _ => Unsupported
      | _ => Ok objValue
      end
  | VArr _ =>
      match srcValue with
      | VArr _ | VObj _ => Unsupported
      | _ => Ok objValue
      end
  | _ => Ok objValue
  end.

(** [_.defaultsDeep(object, ...sources)]: the sources are applied from left
    to right. *)
Definition defaultsDeep (object : value) (sources : list value) : res value :=
  foldl (λ acc source, o ← acc; defaultsValue o source) (Ok object) sources.

(** ** Effects: the calls a handler makes to its collaborators *)

(** The body of a response: [.send()], [.json({code, message})], and
    [.json({code, message})] where the message is a prefix followed by the
    message of a caught error. *)
Inductive reply :=
| Empty
| Json (code : Z) (message : string)
| JsonError (code : Z) (prefix : string) (err : js_error).

(** [firebaseService.get(key)], [firebaseService.storeRaw(id, record)],
    [res.status(status)] followed by [.json] or [.send], [logger.error], and
    the deferred [locationCalculatorService.calculateDerived(records)]. *)
Inductive event :=
| Get (key : string)
| StoreRaw (id : value) (record : value)
| Respond (status : Z) (body : reply)
| LogError (err : js_error)
| CalculateDerived (records : list value).

(** A handler run: the calls made so far, in order, and how the run ended. *)
Record M (A : Type) := Run { trace : list event; outcome : res A }.
Arguments Run {A} trace outcome.
Arguments trace {A} m.
Arguments outcome {A} m.

Global Instance M_ret : MRet M := λ A a, Run [] (Ok a).
Global Instance M_bind : MBind M := λ A B f m,
  match outcome m with
  | Ok a => Run (trace m ++ trace (f a)) (outcome (f a))
  | Throw e => Run (trace m) (Throw e)
  | Unsupported => Run (trace m) Unsupported
  end.

Definition emit (e : event) : M unit := Run [e] (Ok tt).
Definition lift {A} (r : res A) : M A := Run [] r.

(** [try { body } catch (e) { handler(e) }], also [promise.catch(handler)]. *)
Definition catch {A} (body : M A) (handler : js_error → M A) : M A :=
  match outcome body with
  | Throw e => Run (trace body ++ trace (handler e)) (outcome (handler e))
  | _ => body
  end.

(** [_.map(collection, iteratee)]: an array is mapped element by element;
    [null], [undefined], numbers and booleans have nothing to iterate over.
    Mapping over the characters of a string or the values of an object is
    not modelled. *)
Definition lodash_map {B} (collection : value) (iteratee : value → M B) : M (list B) :=
  match collection with
  | VArr items => mapM iteratee items
  | VUndefined | VNull | VBool _ | VNum _ => mret []
  | VStr _ | VObj _ => lift Unsupported
  end.

(** ** The persistence gateway *)

Inductive settled (A : Type) :=
| Resolved (a : A)
| Rejected (message : string).
Arguments Resolved {A} a.
Arguments Rejected {A} message.

(** Modelled from the spec: [services/FirebaseService], whose code is not
    part of the sources at hand.  Section 6 gives its contract:
    [read(key) -> document | absent] and
    [appendHistory(deviceKey, record) -> success | failure].  A document is
    an object; [absent] reaches the caller as [null].  Either call may also
    be rejected, which the handlers catch. *)
Record Gateway := {
  get : string → settled (option (gmap string value));
  storeRaw : value → value → settled unit;
}.

(** [Promise.all(promises)]: resolved when all are, otherwise rejected with
    a rejection of one of them (here the first in the order of issue). *)
Fixpoint Promise_all (promises : list (settled unit)) : settled unit :=
  match promises with
  | [] => Resolved tt
  | Resolved _ :: rest => Promise_all rest
  | Rejected message :: _ => Rejected message
  end.

(** ** The handlers *)

(** A response attempt.  The attempt is recorded; the exception that
    Express raises when a response has already been sent is not modelled,
    and [response] below reads the first attempt only. *)
Definition respond (status : Z) (body : reply) : M unit := emit (Respond status body).

Section Handlers.

Variable firebaseService : Gateway.
(** [Date.now()], read once per request. *)
Variable now : Z.

(** [server.js] 278-294 and 319-335: one write per record that has an id,
    then the response, then the deferred derived computation. *)
Definition persist (locationTimestamps : list value) : M unit :=
  promises ← lodash_map (VArr locationTimestamps) (λ locationTimestamp,
    id ← lift (get_prop "id" locationTimestamp);
    if negb (truthy id) then mret (Resolved tt)
    else
      _ ← emit (StoreRaw id locationTimestamp);
      mret (storeRaw firebaseService id locationTimestamp));
  match Promise_all promises with
  | Resolved _ =>
      _ ← respond 200 Empty;
      emit (CalculateDerived locationTimestamps)
  | Rejected message =>
      respond 500 (JsonError 500 "Error while updating data: " (Rejection message))
  end.

(** [server.js] 273 *)
Definition direct_accuracy (baseAccuracy distance : value) : res value :=
  js_add baseAccuracy distance.

(** [server.js] 314 *)
Definition flagged_accuracy (baseAccuracy distance multi : value) : res value :=
  product ← js_mul distance multi;
  js_add baseAccuracy product.

(** [server.js] 274 and 315 *)
Definition locationTimestamp_of (accuracy id baseLocationTimestamp : value) : res value :=
  defaultsDeep (VObj ∅)
    [ VObj (<["location" := VObj {["accuracy" := accuracy]}]> {["id" := id]});
      baseLocationTimestamp ].

(** [server.js] 297-344 *)
Definition handleFlaggedRequest (body : value) : M unit :=
  flag ← lift (get_prop "flag" body);
  name ← lift (template flag);
  let key := "flag/" +:+ name in
  _ ← emit (Get key);
  match get firebaseService key with
  | Rejected message =>
      _ ← emit (LogError (Rejection message));
      respond 500 (JsonError 500 "Error while updating data: " (Rejection message))
  | Resolved document =>
      let location := from_option VObj VNull document in
      catch
        (_ ← (if negb (truthy location)
              then respond 500
                     (Json 500 ("Error while updating data: flag " +:+ name +:+ " is empty"))
              else mret tt);
         let baseLocationTimestamp :=
           VObj (<["timestamp" := VNum (Finite now)]> {["location" := location]}) in
         accuracy0 ← lift (get_prop "accuracy" location);
         let baseAccuracy := js_or accuracy0 (VNum (Finite 20)) in
         devices ← lift (get_prop "devices" body);
         locationTimestamps ← lodash_map devices (λ device,
           distance ← lift (get_prop "distance" device);
           multi ← lift (get_prop "multi" location);
           accuracy ← lift (flagged_accuracy baseAccuracy distance multi);
           id ← lift (get_prop "id" device);
           lift (locationTimestamp_of accuracy id baseLocationTimestamp));
         persist locationTimestamps)
        (λ err,
           _ ← emit (LogError err);
           respond 500 (JsonError 500 "Error while updating data: " err))
  end.

(** [server.js] 250-295, the body of the route. *)
Definition location_route (body : value) : M unit :=
  flag ← lift (get_prop "flag" body);
  if truthy flag then handleFlaggedRequest body
  else
    location ← lift (get_prop "location" body);
    invalid ← (if negb (truthy location) then mret true
               else
                 longitude ← lift (get_prop "longitude" location);
                 if negb (truthy longitude) then mret true
                 else
                   latitude ← lift (get_prop "latitude" location);
                   mret (negb (truthy latitude)));
    if (invalid : bool) then respond 400 (Json 400 "Location data is invalid")
    else
      devices ← lift (get_prop "devices" body);
      if negb (isArray devices) then respond 400 (Json 400 "Devices data is invalid")
      else
        let baseLocationTimestamp :=
          VObj (<["timestamp" := VNum (Finite now)]> {["location" := location]}) in
        accuracy0 ← lift (get_prop "accuracy" location);
        let baseAccuracy := js_or accuracy0 (VNum (Finite 20)) in
        locationTimestamps ← lodash_map devices (λ device,
          distance ← lift (get_prop "distance" device);
          accuracy ← lift (direct_accuracy baseAccuracy distance);
          id ← lift (get_prop "id" device);
          lift (locationTimestamp_of accuracy id baseLocationTimestamp));
        persist locationTimestamps.

(** [server.js] 416-420: Express hands an exception thrown by a route
    handler to the error middleware registered after the routes. *)
Definition post_location (body : value) : M unit :=
  catch (location_route body)
    (λ err,
       _ ← emit (LogError err);
       respond 500 (Json 500 "Unknown Error")).

End Handlers.

(** ** Reading a trace *)

(** The writes issued to the gateway, in order. *)
Definition stored (t : list event) : list (value * value) :=
  omap (λ e, match e with StoreRaw id record => Some (id, record) | _ => None end) t.

(** The reads issued to the gateway, in order. *)
Definition reads (t : list event) : list string :=
  omap (λ e, match e with Get key => Some key | _ => None end) t.

(** What the caller receives: Express sends one response per request, the
    first one; a later attempt fails inside Express and changes nothing for
    the caller. *)
Definition response (t : list event) : option (Z * reply) :=
  head (omap (λ e, match e with Respond status body => Some (status, body) | _ => None end) t).

(** The record lists handed to the derived computation. *)
Definition derived (t : list event) : list (list value) :=
  omap (λ e, match e with CalculateDerived records => Some records | _ => None end) t.

(** ** The records the handlers are expected to build *)

(** A [LocationTimestamp] document: [{id, timestamp, location}]. *)
Definition LocationTimestamp (id : value) (timestamp : Z) (location : gmap string value) : value :=
  VObj (<["id" := id]> (<["timestamp" := VNum (Finite timestamp)]> {["location" := VObj location]})).

(** [location.accuracy || 20] *)
Definition base_accuracy (location : gmap string value) : value :=
  js_or (location !!! "accuracy") (VNum (Finite 20)).

Definition number_of (v : value) : number := default NaN (to_number v).

(** The record of one device on the direct path. *)
Definition direct_record (now : Z) (location : gmap string value) (device : value) : value :=
  LocationTimestamp (field "id" device) now
    (<["accuracy" := VNum (num_add (number_of (base_accuracy location))
                                    (number_of (field "distance" device)))]> location).

(** The record of one device on the flag path. *)
Definition flagged_record (now : Z) (document : gmap string value) (device : value) : value :=
  LocationTimestamp (field "id" device) now
    (<["accuracy" := VNum (num_add (number_of (base_accuracy document))
                             (num_mul (number_of (field "distance" device))
                                      (number_of (document !!! "multi"))))]> document).

(** A device entry the handlers can process: not [null], and with a
    [distance] inside the modelled arithmetic (a number, or absent). *)
Definition device_entry (device : value) : bool :=
  match device with
  | VUndefined | VNull => false
  | _ => bool_decide (is_Some (to_number (field "distance" device)))
  end.

(** An entry has a non-empty id when [device.id] is truthy; for a string id
    that is exactly when it is not the empty string. *)
Definition has_id (device : value) : bool := truthy (field "id" device).

(** The writes for a list of records and how the request is closed. *)
Definition writes (records : list value) : list (value * value) :=
  omap (λ r, if truthy (field "id" r) then Some (field "id" r, r) else None) records.

Definition closing (gw : Gateway) (records : list value) : list event :=
  match Promise_all (map (λ w, storeRaw gw w.1 w.2) (writes records)) with
  | Resolved _ => [Respond 200 Empty; CalculateDerived records]
  | Rejected message =>
      [Respond 500 (JsonError 500 "Error while updating data: " (Rejection message))]
  end.

(** ** Reports the handlers can process *)

(** Records are objects. *)
Definition is_object (v : value) : Prop := ∃ fields, v = VObj fields.

(** The promise line 280 (line 321) of [server.js] makes for a record. *)
Definition promise_of (gw : Gateway) (record : value) : settled unit :=
  if truthy (field "id" record) then storeRaw gw (field "id" record) record else Resolved tt.

(** The call that issues a write. *)
Definition store_event (w : value * value) : event := StoreRaw w.1 w.2.

(** A report that passes the checks of the direct path. *)
Definition direct_report (body location : gmap string value) (devices : list value) : Prop :=
  truthy (body !!! "flag") = false ∧
  body !!! "location" = VObj location ∧
  truthy (location !!! "longitude") = true ∧
  truthy (location !!! "latitude") = true ∧
  is_Some (to_number (base_accuracy location)) ∧
  body !!! "devices" = VArr devices ∧
  forallb device_entry devices = true.

(** A flagged report whose flag has a stored document. *)
Definition flagged_report (gw : Gateway) (body : gmap string value) (name : string)
    (document : gmap string value) (devices : list value) : Prop :=
  body !!! "flag" = VStr name ∧
  name ≠ "" ∧
  get gw ("flag/" +:+ name) = Resolved (Some document) ∧
  is_Some (to_number (base_accuracy document)) ∧
  is_Some (to_number (document !!! "multi")) ∧
  body !!! "devices" = VArr devices ∧
  forallb device_entry devices = true.

(** The report has a non-empty flag string. *)
Definition has_flag (body : gmap string value) : bool :=
  match body !!! "flag" with
  | VStr s => negb (String.eqb s "")
  | _ => false
  end.

(** The report has a location that contains both coordinates. *)
Definition has_location (body : gmap string value) : bool :=
  match body !!! "location" with
  | VObj location =>
      bool_decide (is_Some (location !! "latitude"))
      && bool_decide (is_Some (location !! "longitude"))
  | _ => false
  end.

(** The gateway [gw] with the document at [key] replaced. *)
Definition with_document (gw : Gateway) (key : string) (document : gmap string value) : Gateway :=
  {| get := λ k, if String.eqb k key then Resolved (Some document) else get gw k;
     storeRaw := storeRaw gw |}.

(** ** Scenario data *)

Definition num (z : Z) : value := VNum (Finite z).

(** A gateway that holds the given documents and accepts every write. *)
Definition flag_store (documents : gmap string (gmap string value)) : Gateway :=
  {| get := λ key, Resolved (documents !! key);
     storeRaw := λ _ _, Resolved tt |}.

(** [{id, distance}] *)
Definition device (id : string) (distance : Z) : value :=
  VObj (<["id" := VStr id]> {["distance" := num distance]}).

(** [{latitude:9, longitude:9, accuracy:5, multiplier:3}] *)
Definition zoneA_multiplier : gmap string value :=
  <["latitude" := num 9]> (<["longitude" := num 9]> (<["accuracy" := num 5]>
    {["multiplier" := num 3]})).

(** [{latitude:9, longitude:9, accuracy:5, multi:3}] *)
Definition zoneA_multi : gmap string value :=
  <["latitude" := num 9]> (<["longitude" := num 9]> (<["accuracy" := num 5]>
    {["multi" := num 3]})).

(** [{flag:"zoneA", devices:[{id:"d1", distance:2}]}] *)
Definition zoneA_report : gmap string value :=
  <["flag" := VStr "zoneA"]> {["devices" := VArr [device "d1" 2]]}.

(** [{flag:"missing", devices:[{id:"d1", distance:1}]}] *)
Definition missing_report : gmap string value :=
  <["flag" := VStr "missing"]> {["devices" := VArr [device "d1" 1]]}.

(** [{latitude:1, longitude:2, accuracy:10}] *)
Definition direct_location : gmap string value :=
  <["latitude" := num 1]> (<["longitude" := num 2]> {["accuracy" := num 10]}).

(** [{location:{latitude:1, longitude:2, accuracy:10}, devices:[{id:"d1", distance:5}]}] *)
Definition direct_scenario : gmap string value :=
  <["location" := VObj direct_location]> {["devices" := VArr [device "d1" 5]]}.

(** The direct scenario with [accuracy:0] in its location. *)
Definition zero_accuracy_scenario : gmap string value :=
  <["location" := VObj (<["accuracy" := num 0]> direct_location)]>
    {["devices" := VArr [device "d1" 5]]}.

(** ** The earlier revision of the route *)

(** [server.js] 59-93, the route as it was before the flag path: no flag,
    no [id] in the record, no derived computation, and each record is built
    and written inside one and the same [_.map], entry by entry. *)
Definition location_route_v1 (firebaseService : Gateway) (now : Z) (body : value) : M unit :=
  location ← lift (get_prop "location" body);
  invalid ← (if negb (truthy location) then mret true
             else
               longitude ← lift (get_prop "longitude" location);
               if negb (truthy longitude) then mret true
               else
                 latitude ← lift (get_prop "latitude" location);
                 mret (negb (truthy latitude)));
  if (invalid : bool) then respond 400 (Json 400 "Location data is invalid")
  else
    devices ← lift (get_prop "devices" body);
    if negb (isArray devices) then respond 400 (Json 400 "Devices data is invalid")
    else
      let baseLocationTimestamp :=
        VObj (<["timestamp" := VNum (Finite now)]> {["location" := location]}) in
      accuracy0 ← lift (get_prop "accuracy" location);
      let baseAccuracy := js_or accuracy0 (VNum (Finite 20)) in
      promises ← lodash_map devices (λ device,
        id ← lift (get_prop "id" device);
        if negb (truthy id) then mret (Resolved tt)
        else
          distance ← lift (get_prop "distance" device);
          accuracy ← lift (direct_accuracy baseAccuracy distance);
          locationTimestamp ← lift (defaultsDeep (VObj ∅)
            [ VObj {["location" := VObj {["accuracy" := accuracy]}]};
              baseLocationTimestamp ]);
          _ ← emit (StoreRaw id locationTimestamp);
          mret (storeRaw firebaseService id locationTimestamp));
      match Promise_all promises with
      | Resolved _ => respond 200 Empty
      | Rejected message =>
          respond 500 (JsonError 500 "Error while updating data: " (Rejection message))
      end.

(** [server.js] 165-169: the error middleware of that revision. *)
Definition post_location_v1 (firebaseService : Gateway) (now : Z) (body : value) : M unit :=
  catch (location_route_v1 firebaseService now body)
    (λ err,
       _ ← emit (LogError err);
       respond 500 (Json 500 "Unknown Error")).

(** ** More ways to read a trace *)

(** Every response the handler attempts, in order. *)
Definition responses (t : list event) : list (Z * reply) :=
  omap (λ e, match e with Respond status body => Some (status, body) | _ => None end) t.

(** The errors handed to the logger, in order. *)
Definition logged (t : list event) : list js_error :=
  omap (λ e, match e with LogError err => Some err | _ => None end) t.

(** The entries [_.map] visits in the collections [lodash_map] models: the
    elements of an array, nothing for [null], [undefined], a number or a
    boolean.  (On a string or an object, where [lodash_map] is
    [Unsupported], this is not what [_.map] visits.) *)
Definition items_of (collection : value) : list value :=
  match collection with
  | VArr items => items
  | _ => []
  end.

(** [record] is the record of the entry [device] over the base location
    [base]: the entry is not [null], and the record has the entry's id, the
    request's timestamp and the base location with a number as accuracy. *)
Definition built_for (now : Z) (base : gmap string value) (device record : value) : Prop :=
  device ≠ VUndefined ∧ device ≠ VNull ∧
  ∃ n, record = LocationTimestamp (field "id" device) now (<["accuracy" := VNum n]> base).

(** The record the earlier revision writes for an entry: no [id] in it. *)
Definition direct_record_v1 (now : Z) (location : gmap string value) (device : value) : value :=
  VObj (<["timestamp" := VNum (Finite now)]>
          {["location" := VObj (<["accuracy" := VNum (num_add (number_of (base_accuracy location))
                                                       (number_of (field "distance" device)))]>
                                   location)]}).

(** The call the earlier revision makes for one entry, and the promise it
    keeps for it. *)
Definition v1_events (now : Z) (location : gmap string value) (device : value) : list event :=
  if has_id device
  then [StoreRaw (field "id" device) (direct_record_v1 now location device)]
  else [].

Definition v1_promise (gw : Gateway) (now : Z) (location : gmap string value)
    (device : value) : settled unit :=
  if has_id device
  then storeRaw gw (field "id" device) (direct_record_v1 now location device)
  else Resolved tt.

(** The shapes a run of the route can have.  [run_thrown]: the handler
    threw and the error middleware answered.  [run_invalid]: one of the two
    checks of the direct path failed.  [run_direct], [run_flagged]: all
    records were built, then written.  [run_get_rejected], [run_flag_absent],
    [run_flag_thrown]: the three ways the flag path fails.  The remaining
    three: the run left the modelled fragment of JavaScript. *)
Inductive route_run (gw : Gateway) (now : Z) (body : value) : M unit → Prop :=
| run_thrown (e : js_error) :
    truthy (field "flag" body) = false →
    route_run gw now body
      (Run [LogError e; Respond 500 (Json 500 "Unknown Error")] (Ok tt))
| run_invalid (message : string) :
    truthy (field "flag" body) = false →
    message = "Location data is invalid" ∨ message = "Devices data is invalid" →
    route_run gw now body (Run [Respond 400 (Json 400 message)] (Ok tt))
| run_direct (base : gmap string value) (records : list value) :
    truthy (field "flag" body) = false →
    field "location" body = VObj base →
    Forall2 (built_for now base) (items_of (field "devices" body)) records →
    route_run gw now body
      (Run (map store_event (writes records) ++ closing gw records) (Ok tt))
| run_unsupported :
    truthy (field "flag" body) = false →
    route_run gw now body (Run [] Unsupported)
| run_flag_unprintable :
    truthy (field "flag" body) = true →
    template (field "flag" body) = Unsupported →
    route_run gw now body (Run [] Unsupported)
| run_get_rejected (name message : string) :
    truthy (field "flag" body) = true →
    template (field "flag" body) = Ok name →
    get gw ("flag/" +:+ name) = Rejected message →
    route_run gw now body
      (Run [Get ("flag/" +:+ name); LogError (Rejection message);
            Respond 500 (JsonError 500 "Error while updating data: " (Rejection message))]
           (Ok tt))
| run_flag_absent (name : string) :
    truthy (field "flag" body) = true →
    template (field "flag" body) = Ok name →
    get gw ("flag/" +:+ name) = Resolved None →
    route_run gw now body
      (Run [Get ("flag/" +:+ name);
            Respond 500 (Json 500 ("Error while updating data: flag " +:+ name +:+ " is empty"));
            LogError (TypeError "accuracy" VNull);
            Respond 500 (JsonError 500 "Error while updating data: "
                           (TypeError "accuracy" VNull))]
           (Ok tt))
| run_flag_thrown (name : string) (document : gmap string value) (e : js_error) :
    truthy (field "flag" body) = true →
    template (field "flag" body) = Ok name →
    get gw ("flag/" +:+ name) = Resolved (Some document) →
    route_run gw now body
      (Run [Get ("flag/" +:+ name); LogError e;
            Respond 500 (JsonError 500 "Error while updating data: " e)]
           (Ok tt))
| run_flag_unsupported (name : string) (document : gmap string value) :
    truthy (field "flag" body) = true →
    template (field "flag" body) = Ok name →
    get gw ("flag/" +:+ name) = Resolved (Some document) →
    route_run gw now body (Run [Get ("flag/" +:+ name)] Unsupported)
| run_flagged (name : string) (document : gmap string value) (records : list value) :
    truthy (field "flag" body) = true →
    template (field "flag" body) = Ok name →
    get gw ("flag/" +:+ name) = Resolved (Some document) →
    Forall2 (built_for now document) (items_of (field "devices" body)) records →
    route_run gw now body
      (Run (Get ("flag/" +:+ name) :: map store_event (writes records) ++ closing gw records)
           (Ok tt)).

(** * Proofs *)

(** ** Running the monad *)

Lemma bind_lift_ok {A B} (a : A) (f : A → M B) : lift (Ok a) ≫= f = f a.
Proof. unfold mbind, M_bind, lift; simpl. by destruct (f a). Qed.

Lemma bind_ret {A B} (a : A) (f : A → M B) : mret a ≫= f = f a.
Proof. apply bind_lift_ok. Qed.

Lemma bind_emit {B} (e : event) (f : unit → M B) :
  emit e ≫= f = Run (e :: trace (f tt)) (outcome (f tt)).
Proof. reflexivity. Qed.

Lemma bind_run_ok {A B} (t : list event) (a : A) (f : A → M B) :
  Run t (Ok a) ≫= f = Run (t ++ trace (f a)) (outcome (f a)).
Proof. reflexivity. Qed.

Lemma bind_run_ret {A B} (t : list event) (a : A) (g : A → B) :
  Run t (Ok a) ≫= (λ k, mret (g k)) = Run t (Ok (g a)).
Proof. unfold mbind, M_bind; cbn. by rewrite app_nil_r. Qed.

Lemma emit_ret {A} (e : event) (a : A) : emit e ≫= (λ _, mret a) = Run [e] (Ok a).
Proof. reflexivity. Qed.

Lemma mapM_cons {A B} (f : A → M B) (x : A) (l : list A) :
  mapM f (x :: l) = y ← f x; k ← mapM f l; mret (y :: k).
Proof. reflexivity. Qed.

Lemma mapM_pure {A B} (f : A → M B) (g : A → B) (l : list A) :
  Forall (λ x, f x = lift (Ok (g x))) l →
  mapM f l = lift (Ok (map g l)).
Proof.
  induction 1 as [|x l Hx _ IH]; [done|].
  by rewrite mapM_cons, Hx, bind_lift_ok, IH, bind_lift_ok.
Qed.

(** ** lodash's [defaultsDeep] *)

Lemma defaultsValue_undefined (v : value) : defaultsValue VUndefined v = Ok v.
Proof. by destruct v. Qed.

Lemma defaultsValue_num (n : number) (v : value) : defaultsValue (VNum n) v = Ok (VNum n).
Proof. by destruct v. Qed.

Lemma defaultsValue_obj (ofields sfields : gmap string value) :
  defaultsValue (VObj ofields) (VObj sfields) =
  VObj <$> map_fold
    (λ key sv (acc : res (gmap string value)),
       object ← acc; v ← defaultsValue (object !!! key) sv; Ok (<[key := v]> object))
    (Ok ofields) sfields.
Proof. reflexivity. Qed.

Lemma res_bind_ok {A B} (a : A) (f : A → res B) : Ok a ≫= f = f a.
Proof. reflexivity. Qed.

Lemma defaultsDeep_two (object s1 s2 : value) :
  defaultsDeep object [s1; s2] = o ← defaultsValue object s1; defaultsValue o s2.
Proof. reflexivity. Qed.

(** Merging a source object into a destination object, when it is known
    what each property of the source turns into. *)
Lemma defaults_fields (g : string → value → value) (ofields sfields : gmap string value) :
  (∀ k sv, sfields !! k = Some sv → defaultsValue (ofields !!! k) sv = Ok (g k sv)) →
  defaultsValue (VObj ofields) (VObj sfields) =
  Ok (VObj (map_imap (λ k sv, Some (g k sv)) sfields ∪ ofields)).
Proof.
  rewrite defaultsValue_obj.
  apply (map_fold_weak_ind (λ r m,
    (∀ k sv, m !! k = Some sv → defaultsValue (ofields !!! k) sv = Ok (g k sv)) →
    VObj <$> r = Ok (VObj (map_imap (λ k sv, Some (g k sv)) m ∪ ofields)))).
  - intros _. by rewrite map_imap_empty, (left_id_L ∅ (∪)).
  - intros i x m r Hi IH Hg.
    assert (Hm : ∀ k sv, m !! k = Some sv →
                 defaultsValue (ofields !!! k) sv = Ok (g k sv)).
    { intros k sv Hk. apply Hg. rewrite lookup_insert_ne; [done|]. congruence. }
    specialize (IH Hm). destruct r as [object| |]; try discriminate.
    injection IH as ->. cbn.
    assert (Hlook : (map_imap (λ k sv, Some (g k sv)) m ∪ ofields) !!! i = ofields !!! i).
    { rewrite !lookup_total_alt, lookup_union_r; [done|].
      by rewrite map_lookup_imap, Hi. }
    rewrite Hlook, (Hg i x) by apply lookup_insert_eq. cbn.
    by rewrite map_imap_insert, insert_union_l.
Qed.

(** A destination that has none of the source's properties takes them all. *)
Lemma defaults_fresh (ofields sfields : gmap string value) :
  (∀ k, is_Some (sfields !! k) → ofields !!! k = VUndefined) →
  defaultsValue (VObj ofields) (VObj sfields) = Ok (VObj (sfields ∪ ofields)).
Proof.
  intros Hfresh. rewrite (defaults_fields (λ _ sv, sv)).
  - do 3 f_equal. apply map_eq; intros k.
    rewrite map_lookup_imap. by destruct (sfields !! k).
  - intros k sv Hk. rewrite Hfresh by eauto. apply defaultsValue_undefined.
Qed.

(** A computed accuracy is never replaced by the accuracy of the base
    location; every other property of the base location is taken over. *)
Lemma defaults_accuracy (n : number) (location : gmap string value) :
  defaultsValue (VObj {["accuracy" := VNum n]}) (VObj location) =
  Ok (VObj (<["accuracy" := VNum n]> location)).
Proof.
  rewrite (defaults_fields (λ k sv, if decide (k = "accuracy") then VNum n else sv)).
  - do 2 f_equal. apply map_eq; intros k.
    rewrite lookup_union, map_lookup_imap, lookup_insert, lookup_singleton.
    destruct (decide ("accuracy" = k)) as [<-|Hne].
    + by destruct (location !! "accuracy").
    + destruct (location !! k); cbn; [|done]. by rewrite decide_False.
  - intros k sv _. rewrite lookup_total_alt, lookup_singleton.
    destruct (decide ("accuracy" = k)) as [<-|Hne]; cbn.
    + rewrite decide_True by done. apply defaultsValue_num.
    + rewrite decide_False by done. apply defaultsValue_undefined.
Qed.

(** The record that lines 274 and 315 of [server.js] assemble. *)
Lemma locationTimestamp_of_spec (n : number) (id : value) (now : Z) (location : gmap string value) :
  locationTimestamp_of (VNum n) id
    (VObj (<["timestamp" := VNum (Finite now)]> {["location" := VObj location]})) =
  Ok (LocationTimestamp id now (<["accuracy" := VNum n]> location)).
Proof.
  unfold locationTimestamp_of, LocationTimestamp. rewrite defaultsDeep_two.
  rewrite defaults_fresh by (intros k _; by rewrite lookup_total_empty).
  rewrite (right_id_L ∅ (∪)), res_bind_ok.
  rewrite (defaults_fields (λ k sv,
    if decide (k = "location") then VObj (<["accuracy" := VNum n]> location) else sv)).
  - generalize (VObj (<["accuracy" := VNum n]> location)); intros x.
    generalize (VObj {["accuracy" := VNum n]}); intros y.
    reflexivity.
  - intros k sv Hk. rewrite lookup_insert in Hk.
    destruct (decide ("timestamp" = k)) as [<-|Hne].
    + injection Hk as <-. rewrite decide_False by done.
      apply defaultsValue_undefined.
    + rewrite lookup_singleton in Hk.
      destruct (decide ("location" = k)) as [<-|]; [|done].
      injection Hk as <-. rewrite decide_True by done.
      apply defaults_accuracy.
Qed.

(** ** Reading properties and computing accuracies *)

Lemma get_prop_obj (key : string) (fields : gmap string value) :
  get_prop key (VObj fields) = Ok (fields !!! key).
Proof. reflexivity. Qed.

Lemma get_prop_field (key : string) (base : value) :
  base ≠ VUndefined → base ≠ VNull → get_prop key base = Ok (field key base).
Proof. by destruct base. Qed.

Lemma arith_number_of (op : number → number → number) (a b : value) :
  is_Some (to_number a) → is_Some (to_number b) →
  arith op a b = Ok (VNum (op (number_of a) (number_of b))).
Proof. unfold arith, number_of. by intros [x ->] [y ->]. Qed.

Lemma device_entry_inv (device : value) :
  device_entry device = true →
  device ≠ VUndefined ∧ device ≠ VNull ∧ is_Some (to_number (field "distance" device)).
Proof.
  unfold device_entry. destruct device; try done;
    intros H%bool_decide_eq_true; done.
Qed.

Lemma entries_Forall (devices : list value) :
  forallb device_entry devices = true → Forall (λ d, device_entry d = true) devices.
Proof.
  induction devices as [|d devices IH]; cbn; [by constructor|].
  intros [Hd Hrest]%andb_true_iff. constructor; auto.
Qed.

Lemma field_id_LocationTimestamp (id : value) (now : Z) (location : gmap string value) :
  field "id" (LocationTimestamp id now location) = id.
Proof. unfold LocationTimestamp, field. by rewrite lookup_total_insert_eq. Qed.

Lemma field_timestamp_LocationTimestamp (id : value) (now : Z) (location : gmap string value) :
  field "timestamp" (LocationTimestamp id now location) = VNum (Finite now).
Proof. reflexivity. Qed.

Lemma field_location_LocationTimestamp (id : value) (now : Z) (location : gmap string value) :
  field "location" (LocationTimestamp id now location) = VObj location.
Proof. reflexivity. Qed.

(** ** Persisting the records *)

Lemma LocationTimestamp_is_object (id : value) (now : Z) (location : gmap string value) :
  is_object (LocationTimestamp id now location).
Proof. by eexists. Qed.

Section Persist.

Variable gw : Gateway.

Lemma store_all (records : list value) :
  Forall is_object records →
  mapM (λ locationTimestamp,
          id ← lift (get_prop "id" locationTimestamp);
          if negb (truthy id) then mret (Resolved tt)
          else _ ← emit (StoreRaw id locationTimestamp);
               mret (storeRaw gw id locationTimestamp)) records =
  Run (map store_event (writes records)) (Ok (map (promise_of gw) records)).
Proof.
  induction 1 as [|r records [fields ->] _ IH]; [done|].
  rewrite mapM_cons, IH, get_prop_obj, bind_lift_ok.
  unfold writes, promise_of. cbn [omap list_omap field map].
  destruct (truthy (fields !!! "id")); cbn [negb].
  - by rewrite emit_ret, bind_run_ok, bind_run_ret.
  - by rewrite bind_ret, bind_run_ret.
Qed.

Lemma Promise_all_writes (records : list value) :
  Promise_all (map (promise_of gw) records) =
  Promise_all (map (λ w, storeRaw gw w.1 w.2) (writes records)).
Proof.
  induction records as [|r records IH]; [done|].
  unfold writes, promise_of in *. cbn [omap list_omap map].
  destruct (truthy (field "id" r)); cbn; [|done].
  destruct (storeRaw gw (field "id" r) r); [|done]. apply IH.
Qed.

Lemma persist_spec (records : list value) :
  Forall is_object records →
  persist gw records =
  Run (map store_event (writes records) ++ closing gw records) (Ok tt).
Proof.
  intros Hobj. unfold persist, lodash_map. rewrite store_all by done.
  rewrite bind_run_ok, Promise_all_writes. unfold closing.
  by destruct (Promise_all _).
Qed.

End Persist.

(** The writes for the records of a device list are those of the devices
    that have an id. *)
Lemma writes_records (record : value → value) (devices : list value) :
  (∀ d, field "id" (record d) = field "id" d) →
  writes (map record devices) =
  map (λ d, (field "id" d, record d)) (filter (λ d, has_id d = true) devices).
Proof.
  intros Hid. induction devices as [|d devices IH]; [done|].
  unfold writes in *. cbn [map omap list_omap]. rewrite filter_cons, Hid.
  destruct (decide (has_id d = true)) as [Hd|Hd]; unfold has_id in Hd.
  - rewrite Hd. cbn. by rewrite IH.
  - apply not_true_is_false in Hd. rewrite Hd. apply IH.
Qed.

Lemma stored_app (t1 t2 : list event) : stored (t1 ++ t2) = stored t1 ++ stored t2.
Proof. apply omap_app. Qed.

Lemma stored_store_events (ws : list (value * value)) : stored (map store_event ws) = ws.
Proof. induction ws as [|[id r] ws IH]; [done|]. cbn. f_equal. apply IH. Qed.

Lemma stored_closing (gw : Gateway) (records : list value) : stored (closing gw records) = [].
Proof. unfold closing. by destruct (Promise_all _). Qed.

Lemma reads_store_events (ws : list (value * value)) : reads (map store_event ws) = [].
Proof. induction ws as [|[id r] ws IH]; [done|]. apply IH. Qed.

Lemma reads_closing (gw : Gateway) (records : list value) : reads (closing gw records) = [].
Proof. unfold closing. by destruct (Promise_all _). Qed.

(** ** The two paths of the route, on reports the handlers can process *)

Lemma truthy_VStr (s : string) : truthy (VStr s) = true ↔ s ≠ "".
Proof.
  cbn. rewrite negb_true_iff. split.
  - intros H ->. by rewrite String.eqb_refl in H.
  - intros H. by apply String.eqb_neq.
Qed.

(** Runs the route up to the call of [firebaseService.get], for a report
    whose flag is the non-empty string [name]. *)
Ltac enter_flag_path body name Hflag Hname :=
  unfold post_location, location_route, handleFlaggedRequest;
  rewrite !(get_prop_obj _ body), Hflag, !(bind_lift_ok (VStr name));
  rewrite (proj2 (truthy_VStr name)) by exact Hname;
  cbn [template];
  rewrite (bind_lift_ok name), bind_emit.

(** Runs the route through the location check, for a report without a flag
    whose location has both coordinates. *)
Ltac enter_direct_path body location Hflag Hloc Hlon Hlat :=
  unfold post_location, location_route;
  rewrite !(get_prop_obj _ body), Hloc;
  rewrite bind_lift_ok, Hflag, bind_lift_ok;
  cbn [truthy negb];
  rewrite !(get_prop_obj _ location);
  rewrite (bind_lift_ok (location !!! "longitude")), Hlon;
  cbn [negb];
  rewrite (bind_lift_ok (location !!! "latitude")), Hlat, bind_ret;
  cbn [negb].

Section Paths.

Variable gw : Gateway.
Variable now : Z.

Lemma direct_device (location : gmap string value) (device : value) :
  is_Some (to_number (base_accuracy location)) →
  device_entry device = true →
  (distance ← lift (get_prop "distance" device);
   accuracy ← lift (direct_accuracy (base_accuracy location) distance);
   id ← lift (get_prop "id" device);
   lift (locationTimestamp_of accuracy id
           (VObj (<["timestamp" := VNum (Finite now)]> {["location" := VObj location]})))) =
  lift (Ok (direct_record now location device)).
Proof.
  intros Hbase (Hu & Hn & Hdist)%device_entry_inv.
  rewrite !(get_prop_field _ device), bind_lift_ok by done.
  unfold direct_accuracy, js_add. rewrite arith_number_of, !bind_lift_ok by done.
  by rewrite locationTimestamp_of_spec.
Qed.

Lemma flagged_device (document : gmap string value) (device : value) :
  is_Some (to_number (base_accuracy document)) →
  is_Some (to_number (document !!! "multi")) →
  device_entry device = true →
  (distance ← lift (get_prop "distance" device);
   multi ← lift (get_prop "multi" (VObj document));
   accuracy ← lift (flagged_accuracy (base_accuracy document) distance multi);
   id ← lift (get_prop "id" device);
   lift (locationTimestamp_of accuracy id
           (VObj (<["timestamp" := VNum (Finite now)]> {["location" := VObj document]})))) =
  lift (Ok (flagged_record now document device)).
Proof.
  intros Hbase Hmulti (Hu & Hn & Hdist)%device_entry_inv.
  rewrite !(get_prop_field _ device), get_prop_obj, !bind_lift_ok by done.
  unfold flagged_accuracy, js_mul, js_add.
  rewrite arith_number_of, res_bind_ok by done.
  rewrite arith_number_of, !bind_lift_ok by done.
  by rewrite locationTimestamp_of_spec.
Qed.

Lemma direct_path (body location : gmap string value) (devices : list value) :
  direct_report body location devices →
  let records := map (direct_record now location) devices in
  post_location gw now (VObj body) =
  Run (map store_event (writes records) ++ closing gw records) (Ok tt).
Proof.
  intros (Hflag & Hloc & Hlon & Hlat & Hbase & Hdev & Hentries) records.
  enter_direct_path body location Hflag Hloc Hlon Hlat.
  rewrite Hdev, (bind_lift_ok (VArr devices)). cbn [isArray negb].
  rewrite bind_lift_ok. unfold lodash_map.
  rewrite (mapM_pure _ (direct_record now location)).
  - rewrite bind_lift_ok, persist_spec; [done|].
    apply Forall_map, Forall_true. intros d. apply LocationTimestamp_is_object.
  - eapply Forall_impl; [by apply entries_Forall|].
    intros d Hd. by apply direct_device.
Qed.

Lemma flag_path (body : gmap string value) (name : string)
    (document : gmap string value) (devices : list value) :
  flagged_report gw body name document devices →
  let records := map (flagged_record now document) devices in
  post_location gw now (VObj body) =
  Run (Get ("flag/" +:+ name) :: map store_event (writes records) ++ closing gw records)
      (Ok tt).
Proof.
  intros (Hflag & Hname & Hget & Hbase & Hmulti & Hdev & Hentries) records.
  enter_flag_path body name Hflag Hname.
  rewrite Hget, Hdev. cbn [from_option truthy negb].
  rewrite bind_ret, (get_prop_obj "accuracy"), (bind_lift_ok (document !!! "accuracy")).
  rewrite (bind_lift_ok (VArr devices)). unfold lodash_map.
  rewrite (mapM_pure _ (flagged_record now document)).
  - rewrite bind_lift_ok, persist_spec; [done|].
    apply Forall_map, Forall_true. intros d. apply LocationTimestamp_is_object.
  - eapply Forall_impl; [by apply entries_Forall|].
    intros d Hd. by apply flagged_device.
Qed.

End Paths.

(** ** What is written on each path *)

Lemma writes_trace (gw : Gateway) (records : list value) :
  stored (map store_event (writes records) ++ closing gw records) = writes records.
Proof. by rewrite stored_app, stored_store_events, stored_closing, app_nil_r. Qed.

Lemma direct_path_stored (gw : Gateway) (now : Z) (body location : gmap string value)
    (devices : list value) :
  direct_report body location devices →
  outcome (post_location gw now (VObj body)) = Ok tt ∧
  reads (trace (post_location gw now (VObj body))) = [] ∧
  stored (trace (post_location gw now (VObj body))) =
    map (λ d, (field "id" d, direct_record now location d))
        (filter (λ d, has_id d = true) devices).
Proof.
  intros Hreport. rewrite (direct_path gw now body location devices Hreport).
  cbn [outcome trace]. split_and!; [done| |].
  - unfold reads. by rewrite omap_app, (reads_store_events _), (reads_closing _ _).
  - rewrite writes_trace. apply writes_records.
    intros d. apply field_id_LocationTimestamp.
Qed.

Lemma flag_path_stored (gw : Gateway) (now : Z) (body : gmap string value) (name : string)
    (document : gmap string value) (devices : list value) :
  flagged_report gw body name document devices →
  outcome (post_location gw now (VObj body)) = Ok tt ∧
  reads (trace (post_location gw now (VObj body))) = ["flag/" +:+ name] ∧
  stored (trace (post_location gw now (VObj body))) =
    map (λ d, (field "id" d, flagged_record now document d))
        (filter (λ d, has_id d = true) devices).
Proof.
  intros Hreport. rewrite (flag_path gw now body name document devices Hreport).
  cbn [outcome trace]. split_and!; [done| |].
  - unfold reads. cbn [omap list_omap]. f_equal.
    by rewrite omap_app, (reads_store_events _), (reads_closing _ _).
  - change (stored (Get ?k :: ?t)) with (stored t).
    rewrite writes_trace. apply writes_records.
    intros d. apply field_id_LocationTimestamp.
Qed.

Lemma accuracy_of_record (id : value) (now : Z) (n : number) (location : gmap string value) :
  field "accuracy" (field "location" (LocationTimestamp id now (<["accuracy" := VNum n]> location)))
  = VNum n.
Proof.
  rewrite field_location_LocationTimestamp. cbn [field].
  by rewrite lookup_total_insert_eq.
Qed.

Lemma property_of_record (id : value) (now : Z) (n : number) (location : gmap string value)
    (key : string) :
  key ≠ "accuracy" →
  field key (field "location" (LocationTimestamp id now (<["accuracy" := VNum n]> location)))
  = location !!! key.
Proof.
  intros Hkey. rewrite field_location_LocationTimestamp. cbn [field].
  by rewrite lookup_total_insert_ne.
Qed.

(** ** Rejection on the direct path *)

Lemma truthy_defined (v : value) : truthy v = true → v ≠ VUndefined ∧ v ≠ VNull.
Proof. by destruct v. Qed.

Lemma invalid_location_rejected (gw : Gateway) (now : Z) (body : gmap string value) :
  truthy (body !!! "flag") = false →
  truthy (body !!! "location")
    && truthy (field "longitude" (body !!! "location"))
    && truthy (field "latitude" (body !!! "location")) = false →
  post_location gw now (VObj body) =
  Run [Respond 400 (Json 400 "Location data is invalid")] (Ok tt).
Proof.
  intros Hflag Hinvalid.
  unfold post_location, location_route.
  rewrite !(get_prop_obj _ body), bind_lift_ok, Hflag, bind_lift_ok.
  destruct (truthy (body !!! "location")) eqn:Hloc; cbn [negb].
  - destruct (truthy_defined _ Hloc) as [Hu Hn].
    rewrite !(get_prop_field _ (body !!! "location")) by done.
    rewrite (bind_lift_ok (field "longitude" (body !!! "location"))).
    destruct (truthy (field "longitude" (body !!! "location"))) eqn:Hlon; cbn [negb].
    + rewrite (bind_lift_ok (field "latitude" (body !!! "location"))), bind_ret.
      cbn [andb] in Hinvalid. rewrite Hinvalid. reflexivity.
    + rewrite bind_ret. reflexivity.
  - rewrite bind_ret. reflexivity.
Qed.

Lemma base_accuracy_zero (location : gmap string value) :
  location !!! "accuracy" = VNum (Finite 0) →
  base_accuracy location = VNum (Finite 20).
Proof. unfold base_accuracy, js_or. by intros ->. Qed.

Lemma base_accuracy_absent (location : gmap string value) :
  base_accuracy (delete "accuracy" location) = VNum (Finite 20).
Proof. unfold base_accuracy, js_or. by rewrite lookup_total_delete_eq. Qed.

(** ** Runs outside the scenarios of the claims *)

(** A [null] device entry makes the direct path throw before anything is
    written; the error middleware answers. *)
Example null_device_unknown_error :
  post_location (flag_store ∅) 1000
    (VObj (<["location" := VObj direct_location]>
             {["devices" := VArr [VNull; device "d1" 5]]})) =
  Run [LogError (TypeError "distance" VNull); Respond 500 (Json 500 "Unknown Error")] (Ok tt).
Proof. vm_compute. reflexivity. Qed.

(** Entries without an id are skipped: nothing is written, the request
    succeeds, and the derived computation still receives their records. *)
Example idless_devices_succeed :
  post_location (flag_store ∅) 1000
    (VObj (<["location" := VObj direct_location]>
             {["devices" := VArr [VObj {["distance" := num 7]}]]})) =
  Run [Respond 200 Empty;
       CalculateDerived
         [LocationTimestamp VUndefined 1000 (<["accuracy" := num 17]> direct_location)]]
      (Ok tt).
Proof. vm_compute. reflexivity. Qed.

(** A rejected write turns the answer into a 500; the derived computation
    is not started. *)
Example rejected_write_fails :
  post_location {| get := λ _, Resolved None; storeRaw := λ _ _, Rejected "offline" |} 1000
    (VObj direct_scenario) =
  Run [StoreRaw (VStr "d1")
         (LocationTimestamp (VStr "d1") 1000 (<["accuracy" := num 15]> direct_location));
       Respond 500 (JsonError 500 "Error while updating data: " (Rejection "offline"))]
      (Ok tt).
Proof. vm_compute. reflexivity. Qed.

(** ** Order and arithmetic on numbers *)

Lemma sum_monotone (base p1 p2 : number) :
  num_le p1 p2 = true →
  num_add base p1 ≠ NaN → num_add base p2 ≠ NaN →
  num_le (num_add base p1) (num_add base p2) = true.
Proof.
  destruct base as [|b|[]], p1 as [|x|[]], p2 as [|y|[]]; cbn; try done.
  intros Hle%Z.leb_le _ _. apply Z.leb_le. lia.
Qed.

Lemma product_monotone (m d1 d2 : number) :
  num_le (Finite 0) m = true →
  num_le d1 d2 = true →
  num_mul d1 m ≠ NaN → num_mul d2 m ≠ NaN →
  num_le (num_mul d1 m) (num_mul d2 m) = true.
Proof.
  destruct m as [|k|[]], d1 as [|x|[]], d2 as [|y|[]]; cbn; try done;
    repeat match goal with
           | |- context [?a =? ?b] => destruct (Z.eqb_spec a b)
           | |- context [?a <? ?b] => destruct (Z.ltb_spec a b)
           end; cbn; try done; try lia;
    rewrite ?Z.leb_le; intros; try lia; try nia.
Qed.

Lemma sum_NaN (base p : number) : p = NaN → num_add base p = NaN.
Proof. intros ->. by destruct base. Qed.

Lemma monotone_unless_NaN (base m d1 d2 : number) :
  num_le (Finite 0) m = true →
  num_le d1 d2 = true →
  num_add base (num_mul d1 m) ≠ NaN → num_add base (num_mul d2 m) ≠ NaN →
  num_le (num_add base (num_mul d1 m)) (num_add base (num_mul d2 m)) = true.
Proof.
  intros Hm Hd H1 H2. apply sum_monotone; [|done..].
  apply product_monotone; [done..| |]; intros HNaN.
  - by apply H1, sum_NaN.
  - by apply H2, sum_NaN.
Qed.

Lemma flagged_not_NaN (base m d : number) :
  finite base = true → finite m = true → d ≠ NaN →
  m ≠ Finite 0 ∨ finite d = true →
  num_add base (num_mul d m) ≠ NaN.
Proof.
  destruct base as [|b|?], m as [|k|?], d as [|x|s]; cbn; try done.
  intros _ _ _ [Hk|?]; [|done].
  destruct (Z.eqb_spec k 0) as [->|]; done.
Qed.

(** * The claims *)

(** C1, as stated, fails: with the stored flag document
    [{latitude:9, longitude:9, accuracy:5, multiplier:3}] and devices
    [[{id:"d1", distance:2}]] the one record written has accuracy [NaN], not
    11, because the handler reads the property [multi], which this document
    does not have. *)
Lemma C1_counterexample :
  stored (trace (post_location (flag_store {["flag/zoneA" := zoneA_multiplier]}) 1000
                   (VObj zoneA_report))) =
    [(VStr "d1", LocationTimestamp (VStr "d1") 1000
                   (<["accuracy" := VNum NaN]> zoneA_multiplier))] ∧
  stored (trace (post_location (flag_store {["flag/zoneA" := zoneA_multiplier]}) 1000
                   (VObj zoneA_report))) ≠
    [(VStr "d1", LocationTimestamp (VStr "d1") 1000
                   (<["latitude" := num 9]> (<["longitude" := num 9]>
                      {["accuracy" := num 11]})))].
Proof.
  assert (Hrun : stored (trace (post_location (flag_store {["flag/zoneA" := zoneA_multiplier]})
                                  1000 (VObj zoneA_report))) =
                 [(VStr "d1", LocationTimestamp (VStr "d1") 1000
                                (<["accuracy" := VNum NaN]> zoneA_multiplier))]).
  { vm_compute. reflexivity. }
  split; [exact Hrun|].
  rewrite Hrun. intros Heq.
  apply (f_equal (λ ws, field "accuracy" (field "location" (default VNull (snd <$> head ws)))))
    in Heq.
  vm_compute in Heq. discriminate.
Qed.

(** C1, amended: when the stored flag document is
    [{latitude:9, longitude:9, accuracy:5, multi:3}] and the devices are
    [[{id:"d1", distance:2}]], exactly one record is written, for ["d1"],
    with the shared timestamp and the stored document as location except
    that its accuracy is 11.  In general, on the flag path each device entry
    with an id gets one record whose accuracy is the base accuracy of the
    stored document plus the device's distance times the document's [multi]
    property. *)
Theorem C1_flag_accuracy :
  (∀ (gw : Gateway) (now : Z),
     get gw "flag/zoneA" = Resolved (Some zoneA_multi) →
     outcome (post_location gw now (VObj zoneA_report)) = Ok tt ∧
     stored (trace (post_location gw now (VObj zoneA_report))) =
       [(VStr "d1", LocationTimestamp (VStr "d1") now
                      (<["latitude" := num 9]> (<["longitude" := num 9]>
                         (<["accuracy" := num 11]> {["multi" := num 3]}))))]) ∧
  (∀ (gw : Gateway) (now : Z) (body : gmap string value) (name : string)
     (document : gmap string value) (devices : list value),
     flagged_report gw body name document devices →
     outcome (post_location gw now (VObj body)) = Ok tt ∧
     stored (trace (post_location gw now (VObj body))) =
       map (λ d, (field "id" d, flagged_record now document d))
           (filter (λ d, has_id d = true) devices) ∧
     ∀ (d : value) (a x m : Z),
       base_accuracy document = VNum (Finite a) →
       field "distance" d = VNum (Finite x) →
       document !!! "multi" = VNum (Finite m) →
       field "accuracy" (field "location" (flagged_record now document d))
       = VNum (Finite (a + x * m))).
Proof.
  split.
  - intros gw now Hget.
    assert (Hreport : flagged_report gw zoneA_report "zoneA" zoneA_multi [device "d1" 2]).
    { by repeat split. }
    destruct (flag_path_stored gw now _ _ _ _ Hreport) as (Hout & _ & Hstored).
    split; [done|]. rewrite Hstored. vm_compute. reflexivity.
  - intros gw now body name document devices Hreport.
    destruct (flag_path_stored gw now _ _ _ _ Hreport) as (Hout & _ & Hstored).
    split_and!; [done..|].
    intros d a x m Ha Hx Hm. unfold flagged_record.
    rewrite accuracy_of_record. unfold number_of. by rewrite Ha, Hx, Hm.
Qed.

Lemma C1_flag_accuracy_witness :
  flagged_report (flag_store {["flag/zoneA" := zoneA_multi]}) zoneA_report "zoneA"
    zoneA_multi [device "d1" 2] ∧
  stored (trace (post_location (flag_store {["flag/zoneA" := zoneA_multi]}) 1000
                   (VObj zoneA_report))) =
    map (λ d, (field "id" d, flagged_record 1000 zoneA_multi d))
        (filter (λ d, has_id d = true) [device "d1" 2]).
Proof.
  assert (Hreport : flagged_report (flag_store {["flag/zoneA" := zoneA_multi]})
                      zoneA_report "zoneA" zoneA_multi [device "d1" 2]).
  { repeat split; try reflexivity; try discriminate; vm_compute; eauto. }
  split; [exact Hreport|].
  exact (proj1 (proj2 (proj2 C1_flag_accuracy _ 1000 _ _ _ _ Hreport))).
Defined.

(** C2: a flagged report whose flag has no stored document is answered
    with a failure (status 500); the gateway is read once, for the flag, and
    nothing is written or handed to the derived computation.  The handler
    gets there by answering first and then failing on [location.accuracy]
    of the absent document, which its own [catch] logs. *)
Theorem C2_missing_flag_fails (gw : Gateway) (now : Z) (body : gmap string value)
    (name : string) :
  body !!! "flag" = VStr name →
  name ≠ "" →
  get gw ("flag/" +:+ name) = Resolved None →
  post_location gw now (VObj body) =
    Run [ Get ("flag/" +:+ name);
          Respond 500 (Json 500 ("Error while updating data: flag " +:+ name +:+ " is empty"));
          LogError (TypeError "accuracy" VNull);
          Respond 500 (JsonError 500 "Error while updating data: "
                         (TypeError "accuracy" VNull)) ]
        (Ok tt) ∧
  response (trace (post_location gw now (VObj body))) =
    Some (500, Json 500 ("Error while updating data: flag " +:+ name +:+ " is empty")) ∧
  reads (trace (post_location gw now (VObj body))) = ["flag/" +:+ name] ∧
  stored (trace (post_location gw now (VObj body))) = [] ∧
  derived (trace (post_location gw now (VObj body))) = [].
Proof.
  intros Hflag Hname Hget.
  assert (Hrun : post_location gw now (VObj body) = Run
    [ Get ("flag/" +:+ name);
      Respond 500 (Json 500 ("Error while updating data: flag " +:+ name +:+ " is empty"));
      LogError (TypeError "accuracy" VNull);
      Respond 500 (JsonError 500 "Error while updating data: " (TypeError "accuracy" VNull)) ]
    (Ok tt)).
  { enter_flag_path body name Hflag Hname. rewrite Hget. reflexivity. }
  rewrite Hrun. by repeat split.
Qed.

Lemma C2_missing_flag_fails_witness :
  response (trace (post_location (flag_store {["flag/zoneA" := zoneA_multi]}) 1000
                     (VObj missing_report))) =
    Some (500, Json 500 "Error while updating data: flag missing is empty") ∧
  stored (trace (post_location (flag_store {["flag/zoneA" := zoneA_multi]}) 1000
                   (VObj missing_report))) = [].
Proof.
  destruct (C2_missing_flag_fails (flag_store {["flag/zoneA" := zoneA_multi]}) 1000
              missing_report "missing") as (_ & Hresponse & _ & Hstored & _).
  - reflexivity.
  - discriminate.
  - reflexivity.
  - split; [exact Hresponse | exact Hstored].
Defined.

(** C3: on a report that passes validation, with or without a flag, one
    write is issued for each device entry that has a non-empty id, in the
    order of the entries and under that id, and no other write; every record
    written carries the one timestamp of the request and the base location's
    properties, latitude and longitude among them, with only [accuracy]
    replaced. *)
Theorem C3_one_record_per_id (gw : Gateway) (now : Z) (body base : gmap string value)
    (devices : list value) :
  direct_report body base devices ∨ (∃ name, flagged_report gw body name base devices) →
  outcome (post_location gw now (VObj body)) = Ok tt ∧
  length (stored (trace (post_location gw now (VObj body)))) =
    length (filter (λ d, has_id d = true) devices) ∧
  map fst (stored (trace (post_location gw now (VObj body)))) =
    map (field "id") (filter (λ d, has_id d = true) devices) ∧
  Forall (λ w : value * value,
            field "timestamp" w.2 = VNum (Finite now) ∧
            field "latitude" (field "location" w.2) = base !!! "latitude" ∧
            field "longitude" (field "location" w.2) = base !!! "longitude" ∧
            ∀ key, key ≠ "accuracy" → field key (field "location" w.2) = base !!! key)
         (stored (trace (post_location gw now (VObj body)))).
Proof.
  intros Hreport.
  assert (∃ record : value → value,
            outcome (post_location gw now (VObj body)) = Ok tt ∧
            stored (trace (post_location gw now (VObj body))) =
              map (λ d, (field "id" d, record d)) (filter (λ d, has_id d = true) devices) ∧
            ∀ d, ∃ n, record d = LocationTimestamp (field "id" d) now
                                   (<["accuracy" := VNum n]> base))
    as (record & Hout & Hstored & Hrecord).
  { destruct Hreport as [Hdirect|[name Hflagged]].
    - exists (direct_record now base).
      destruct (direct_path_stored gw now _ _ _ Hdirect) as (? & _ & ?).
      split_and!; [done..|]. intros d. by eexists.
    - exists (flagged_record now base).
      destruct (flag_path_stored gw now _ _ _ _ Hflagged) as (? & _ & ?).
      split_and!; [done..|]. intros d. by eexists. }
  rewrite Hstored. split_and!.
  - done.
  - by rewrite length_map.
  - rewrite <-list_fmap_compose. done.
  - apply Forall_map, Forall_true. intros d. cbn [snd].
    destruct (Hrecord d) as [n ->]. split_and!.
    + apply field_timestamp_LocationTimestamp.
    + by apply property_of_record.
    + by apply property_of_record.
    + intros key Hkey. by apply property_of_record.
Qed.

Lemma C3_one_record_per_id_witness :
  length (stored (trace (post_location (flag_store ∅) 1000
     (VObj (<["location" := VObj direct_location]>
              {["devices" := VArr [device "d1" 5; VObj {["distance" := num 7]};
                                   device "" 1; device "d2" 3]]}))))) = 2%nat.
Proof.
  refine (proj1 (proj2 (C3_one_record_per_id (flag_store ∅) 1000 _ direct_location
            [device "d1" 5; VObj {["distance" := num 7]}; device "" 1; device "d2" 3] _))).
  left. repeat split; try reflexivity. vm_compute. eauto.
Defined.

(** C4 does not hold on the flag path.  The direct path answers a report
    whose [devices] is not an array with 400 "Devices data is invalid"
    (first part).  The flag path has no such check: a flagged report whose
    flag is stored and whose [devices] is absent, [null], a boolean or a
    number is answered with 200, and the derived computation is started on
    an empty record list (second part).  On both paths an empty array is
    accepted and nothing is written (third part). *)
Theorem C4_devices_check_only_on_direct_path :
  (∀ (gw : Gateway) (now : Z) (body location : gmap string value),
     truthy (body !!! "flag") = false →
     body !!! "location" = VObj location →
     truthy (location !!! "longitude") = true →
     truthy (location !!! "latitude") = true →
     isArray (body !!! "devices") = false →
     post_location gw now (VObj body) =
       Run [Respond 400 (Json 400 "Devices data is invalid")] (Ok tt)) ∧
  (∀ (gw : Gateway) (now : Z) (body : gmap string value) (name : string)
     (document : gmap string value),
     body !!! "flag" = VStr name →
     name ≠ "" →
     get gw ("flag/" +:+ name) = Resolved (Some document) →
     match body !!! "devices" with
     | VUndefined | VNull | VBool _ | VNum _ => True
     | _ => False
     end →
     post_location gw now (VObj body) =
       Run [Get ("flag/" +:+ name); Respond 200 Empty; CalculateDerived []] (Ok tt)) ∧
  (∀ (gw : Gateway) (now : Z) (body base : gmap string value),
     direct_report body base [] ∨ (∃ name, flagged_report gw body name base []) →
     outcome (post_location gw now (VObj body)) = Ok tt ∧
     response (trace (post_location gw now (VObj body))) = Some (200, Empty) ∧
     stored (trace (post_location gw now (VObj body))) = []).
Proof.
  split_and!.
  - intros gw now body location Hflag Hloc Hlon Hlat Hdev.
    enter_direct_path body location Hflag Hloc Hlon Hlat.
    rewrite bind_lift_ok, Hdev. reflexivity.
  - intros gw now body name document Hflag Hname Hget Hdev.
    enter_flag_path body name Hflag Hname.
    rewrite Hget. cbn [from_option truthy negb].
    rewrite bind_ret, (get_prop_obj "accuracy"), (bind_lift_ok (document !!! "accuracy")).
    rewrite bind_lift_ok.
    destruct (body !!! "devices"); done.
  - intros gw now body base [Hdirect|[name Hflagged]].
    + by rewrite (direct_path gw now _ _ _ Hdirect).
    + by rewrite (flag_path gw now _ _ _ _ Hflagged).
Qed.

Lemma C4_devices_check_only_on_direct_path_witness :
  post_location (flag_store {["flag/zoneA" := zoneA_multi]}) 1000
    (VObj {["flag" := VStr "zoneA"]}) =
  Run [Get "flag/zoneA"; Respond 200 Empty; CalculateDerived []] (Ok tt) ∧
  post_location (flag_store {["flag/zoneA" := zoneA_multi]}) 1000
    (VObj (<["flag" := VStr "zoneA"]> {["devices" := num 5]})) =
  Run [Get "flag/zoneA"; Respond 200 Empty; CalculateDerived []] (Ok tt) ∧
  post_location (flag_store {["flag/zoneA" := zoneA_multi]}) 1000
    (VObj (<["location" := VObj direct_location]> {["devices" := num 5]})) =
  Run [Respond 400 (Json 400 "Devices data is invalid")] (Ok tt).
Proof.
  split_and!.
  - apply (proj1 (proj2 C4_devices_check_only_on_direct_path) _ 1000 _ "zoneA" zoneA_multi);
      [reflexivity | discriminate | reflexivity | exact I].
  - apply (proj1 (proj2 C4_devices_check_only_on_direct_path) _ 1000 _ "zoneA" zoneA_multi);
      [reflexivity | discriminate | reflexivity | exact I].
  - apply (proj1 C4_devices_check_only_on_direct_path _ 1000 _ direct_location);
      reflexivity.
Defined.

(** C5: when the report's [flag] is set, the run depends on the report only
    through [flag] and [devices]: whatever [location] (and accuracy in it) the
    caller supplies, or none, the run is the same; and the records written
    take their location and their multiplier from the stored flag document. *)
Theorem C5_flag_ignores_caller_location (gw : Gateway) (now : Z)
    (body body' : gmap string value) :
  truthy (body !!! "flag") = true →
  body' !!! "flag" = body !!! "flag" →
  body' !!! "devices" = body !!! "devices" →
  post_location gw now (VObj body') = post_location gw now (VObj body) ∧
  ∀ (name : string) (document : gmap string value) (devices : list value),
    flagged_report gw body name document devices →
    stored (trace (post_location gw now (VObj body'))) =
      map (λ d, (field "id" d, flagged_record now document d))
          (filter (λ d, has_id d = true) devices).
Proof.
  intros Hflag Hsame_flag Hsame_devices.
  assert (Hsame : post_location gw now (VObj body') = post_location gw now (VObj body)).
  { unfold post_location, location_route, handleFlaggedRequest.
    rewrite !(get_prop_obj "flag"), !(get_prop_obj "devices").
    rewrite Hsame_flag, Hsame_devices.
    rewrite !(bind_lift_ok (body !!! "flag")), Hflag. reflexivity. }
  split; [exact Hsame|].
  intros name document devices Hreport. rewrite Hsame.
  by destruct (flag_path_stored gw now _ _ _ _ Hreport) as (_ & _ & ?).
Qed.

Lemma C5_flag_ignores_caller_location_witness :
  post_location (flag_store {["flag/zoneA" := zoneA_multi]}) 1000
    (VObj (<["location" := VObj direct_location]> zoneA_report)) =
  post_location (flag_store {["flag/zoneA" := zoneA_multi]}) 1000 (VObj zoneA_report).
Proof.
  apply (C5_flag_ignores_caller_location _ 1000 zoneA_report
           (<["location" := VObj direct_location]> zoneA_report)); reflexivity.
Defined.

(** C6, as the claim states it, fails: the report [{flag: true}] has neither
    a location nor a non-empty flag string, yet line 251 takes its flag,
    which is truthy, for a flag: the handler reads [flag/true] from the
    gateway and answers 500, not 400 "Location data is invalid". *)
Lemma C6_counterexample :
  has_flag {["flag" := VBool true]} = false ∧
  has_location {["flag" := VBool true]} = false ∧
  reads (trace (post_location (flag_store ∅) 1000 (VObj {["flag" := VBool true]})))
  = ["flag/true"] ∧
  response (trace (post_location (flag_store ∅) 1000 (VObj {["flag" := VBool true]})))
  = Some (500, Json 500 "Error while updating data: flag true is empty").
Proof. by vm_compute. Qed.

(** C6, amended: a report with neither a location that contains both
    [latitude] and [longitude] nor a truthy flag (a flag other than
    [undefined], [null], [false], 0, [NaN] and the empty string) is answered
    with 400 "Location data is invalid", and that response is the only thing
    the handler does: the gateway is neither read nor written. *)
Theorem C6_invalid_location_before_gateway (gw : Gateway) (now : Z)
    (body : gmap string value) :
  truthy (body !!! "flag") = false →
  has_location body = false →
  post_location gw now (VObj body) =
    Run [Respond 400 (Json 400 "Location data is invalid")] (Ok tt) ∧
  reads (trace (post_location gw now (VObj body))) = [] ∧
  stored (trace (post_location gw now (VObj body))) = [].
Proof.
  intros Hflag Hlocation.
  assert (Hrun : post_location gw now (VObj body) =
                 Run [Respond 400 (Json 400 "Location data is invalid")] (Ok tt)).
  { apply invalid_location_rejected; [done|].
    unfold has_location in Hlocation.
    destruct (body !!! "location") as [| | | | | |location]; cbn; try done.
    - by rewrite andb_false_r.
    - by rewrite andb_false_r.
    - by rewrite andb_false_r.
    - rewrite !lookup_total_alt.
      destruct (location !! "latitude"), (location !! "longitude"); cbn in *;
        try done; by rewrite ?andb_false_r. }
  rewrite Hrun. done.
Qed.

Lemma C6_invalid_location_before_gateway_witness :
  post_location (flag_store {["flag/zoneA" := zoneA_multi]}) 1000
    (VObj (<["flag" := VStr ""]>
             (<["location" := VObj {["latitude" := num 1]}]>
                {["devices" := VArr [device "d1" 5]]}))) =
  Run [Respond 400 (Json 400 "Location data is invalid")] (Ok tt).
Proof.
  apply (C6_invalid_location_before_gateway (flag_store {["flag/zoneA" := zoneA_multi]}) 1000);
    reflexivity.
Defined.

(** C7: the direct-path report
    [{location:{latitude:1, longitude:2, accuracy:10}, devices:[{id:"d1", distance:5}]}]
    makes the handler write exactly one record,
    [{id:"d1", location:{latitude:1, longitude:2, accuracy:15}, timestamp:T}];
    in general, on the direct path each device entry with an id gets one
    record whose accuracy is the base accuracy plus the device's distance. *)
Theorem C7_direct_accuracy :
  (∀ (gw : Gateway) (now : Z),
     outcome (post_location gw now (VObj direct_scenario)) = Ok tt ∧
     stored (trace (post_location gw now (VObj direct_scenario))) =
       [(VStr "d1", LocationTimestamp (VStr "d1") now
                      (<["latitude" := num 1]> (<["longitude" := num 2]>
                         {["accuracy" := num 15]})))]) ∧
  (∀ (gw : Gateway) (now : Z) (body location : gmap string value) (devices : list value),
     direct_report body location devices →
     outcome (post_location gw now (VObj body)) = Ok tt ∧
     stored (trace (post_location gw now (VObj body))) =
       map (λ d, (field "id" d, direct_record now location d))
           (filter (λ d, has_id d = true) devices) ∧
     ∀ (d : value) (a x : Z),
       base_accuracy location = VNum (Finite a) →
       field "distance" d = VNum (Finite x) →
       field "accuracy" (field "location" (direct_record now location d))
       = VNum (Finite (a + x))).
Proof.
  split.
  - intros gw now.
    assert (Hreport : direct_report direct_scenario direct_location [device "d1" 5]).
    { by repeat split. }
    destruct (direct_path_stored gw now _ _ _ Hreport) as (Hout & _ & Hstored).
    split; [done|]. rewrite Hstored. vm_compute. reflexivity.
  - intros gw now body location devices Hreport.
    destruct (direct_path_stored gw now _ _ _ Hreport) as (Hout & _ & Hstored).
    split_and!; [done..|].
    intros d a x Ha Hx. unfold direct_record.
    rewrite accuracy_of_record. unfold number_of. by rewrite Ha, Hx.
Qed.

Lemma C7_direct_accuracy_witness :
  direct_report direct_scenario direct_location [device "d1" 5] ∧
  stored (trace (post_location (flag_store ∅) 1000 (VObj direct_scenario))) =
    map (λ d, (field "id" d, direct_record 1000 direct_location d))
        (filter (λ d, has_id d = true) [device "d1" 5]).
Proof.
  assert (Hreport : direct_report direct_scenario direct_location [device "d1" 5]).
  { repeat split; try reflexivity. vm_compute. eauto. }
  split; [exact Hreport|].
  exact (proj1 (proj2 (proj2 C7_direct_accuracy (flag_store ∅) 1000 _ _ _ Hreport))).
Defined.

(** C8, as the claim states it, fails where a number is infinite (JSON
    [1e999] is read as [Infinity]).  On the flag path, with base accuracy 5
    and multiplier 0, the distances 0 and [Infinity] give the accuracies 5
    and [NaN]; on the direct path, with base accuracy [-Infinity], they give
    [-Infinity] and [NaN]; and nothing is below [NaN].  The handler writes
    these accuracies. *)
Lemma C8_counterexample :
  num_le (Finite 0) (Finite 0) = true ∧
  num_le (Finite 0) (Infinity false) = true ∧
  flagged_accuracy (num 5) (num 0) (num 0) = Ok (num 5) ∧
  flagged_accuracy (num 5) (VNum (Infinity false)) (num 0) = Ok (VNum NaN) ∧
  num_le (Finite 5) NaN = false ∧
  direct_accuracy (VNum (Infinity true)) (num 0) = Ok (VNum (Infinity true)) ∧
  direct_accuracy (VNum (Infinity true)) (VNum (Infinity false)) = Ok (VNum NaN) ∧
  num_le (Infinity true) NaN = false ∧
  map (λ w, field "accuracy" (field "location" w.2))
    (stored (trace (post_location
       (flag_store {["flag/zoneA" := <["accuracy" := num 5]> {["multi" := num 0]}]}) 1000
       (VObj (<["flag" := VStr "zoneA"]>
                {["devices" := VArr [device "d1" 0;
                                     VObj (<["id" := VStr "d2"]>
                                             {["distance" := VNum (Infinity false)]})]]})))))
  = [num 5; VNum NaN].
Proof. by vm_compute. Qed.

(** C8, amended: for a fixed base accuracy and a fixed multiplier that is
    not negative, and for all distances [d1 <= d2], infinite ones included,
    the accuracies the handlers compute for [d1] and [d2] (line 314 on the
    flag path, line 273 on the direct path) are in this order whenever
    neither of them is [NaN].  Neither is [NaN] on the direct path when the
    base accuracy is finite, and on the flag path when base accuracy and
    multiplier are finite and the multiplier is not 0 or both distances are
    finite. *)
Theorem C8_accuracy_monotone (base m d1 d2 : number) :
  num_le (Finite 0) m = true →
  num_le d1 d2 = true →
  (∃ a1 a2,
     flagged_accuracy (VNum base) (VNum d1) (VNum m) = Ok (VNum a1) ∧
     flagged_accuracy (VNum base) (VNum d2) (VNum m) = Ok (VNum a2) ∧
     (a1 ≠ NaN → a2 ≠ NaN → num_le a1 a2 = true) ∧
     (finite base = true → finite m = true →
      m ≠ Finite 0 ∨ finite d1 && finite d2 = true →
      num_le a1 a2 = true)) ∧
  (∃ a1 a2,
     direct_accuracy (VNum base) (VNum d1) = Ok (VNum a1) ∧
     direct_accuracy (VNum base) (VNum d2) = Ok (VNum a2) ∧
     (a1 ≠ NaN → a2 ≠ NaN → num_le a1 a2 = true) ∧
     (finite base = true → num_le a1 a2 = true)).
Proof.
  intros Hm Hd. split.
  - exists (num_add base (num_mul d1 m)), (num_add base (num_mul d2 m)).
    split_and!; [done..| |].
    + intros H1 H2. by apply monotone_unless_NaN.
    + intros Hbase Hfinite Hcase.
      assert (d1 ≠ NaN ∧ d2 ≠ NaN) as [Hd1 Hd2]
        by (by destruct d1 as [| |[]], d2 as [| |[]]).
      apply monotone_unless_NaN; [done..| |].
      * apply flagged_not_NaN; [done..|].
        destruct Hcase as [?|[? _]%andb_prop]; [by left|by right].
      * apply flagged_not_NaN; [done..|].
        destruct Hcase as [?|[_ ?]%andb_prop]; [by left|by right].
  - exists (num_add base d1), (num_add base d2).
    split_and!; [done..| |].
    + intros H1 H2. by apply sum_monotone.
    + intros Hbase. destruct base as [|b|?]; try done.
      destruct d1 as [|x|[]], d2 as [|y|[]]; try done.
      cbn in *. apply Z.leb_le. apply Z.leb_le in Hd. lia.
Qed.

Lemma C8_accuracy_monotone_witness :
  ∃ a1 a2,
    direct_accuracy (VNum (Finite 5)) (VNum (Finite 2)) = Ok (VNum a1) ∧
    direct_accuracy (VNum (Finite 5)) (VNum (Infinity false)) = Ok (VNum a2) ∧
    (a1 ≠ NaN → a2 ≠ NaN → num_le a1 a2 = true) ∧
    (finite (Finite 5) = true → num_le a1 a2 = true).
Proof.
  apply (C8_accuracy_monotone (Finite 5) (Finite 3) (Finite 2) (Infinity false)); reflexivity.
Defined.

(** C9: on a report without a flag, a location whose [latitude] or
    [longitude] is the number 0 is rejected as an invalid location, exactly
    as the same report with that coordinate left out. *)
Theorem C9_zero_coordinate_rejected (gw : Gateway) (now : Z)
    (body location : gmap string value) (key : string) :
  truthy (body !!! "flag") = false →
  body !!! "location" = VObj location →
  key = "latitude" ∨ key = "longitude" →
  location !!! key = VNum (Finite 0) →
  post_location gw now (VObj body) =
    Run [Respond 400 (Json 400 "Location data is invalid")] (Ok tt) ∧
  post_location gw now (VObj (<["location" := VObj (delete key location)]> body)) =
    Run [Respond 400 (Json 400 "Location data is invalid")] (Ok tt).
Proof.
  intros Hflag Hloc Hkey Hzero. split.
  - apply invalid_location_rejected; [done|].
    rewrite Hloc. cbn [truthy field andb].
    destruct Hkey as [-> | ->]; rewrite Hzero; cbn; [apply andb_false_r | done].
  - apply invalid_location_rejected.
    + by rewrite lookup_total_insert_ne.
    + rewrite lookup_total_insert_eq. cbn [truthy field andb].
      destruct Hkey as [-> | ->]; rewrite lookup_total_delete_eq; cbn;
        [apply andb_false_r | done].
Qed.

Lemma C9_zero_coordinate_rejected_witness :
  post_location (flag_store ∅) 1000
    (VObj (<["location" := VObj (<["latitude" := num 0]> {["longitude" := num 2]})]>
             {["devices" := VArr [device "d1" 5]]})) =
  Run [Respond 400 (Json 400 "Location data is invalid")] (Ok tt).
Proof.
  refine (proj1 (C9_zero_coordinate_rejected (flag_store ∅) 1000
            (<["location" := VObj (<["latitude" := num 0]> {["longitude" := num 2]})]>
               {["devices" := VArr [device "d1" 5]]})
            (<["latitude" := num 0]> {["longitude" := num 2]}) "latitude" _ _ _ _));
    [reflexivity | reflexivity | left; reflexivity | reflexivity].
Defined.

(** C10: when the base location (the report's own on the direct path, the
    stored flag document on the flag path) has accuracy 0, every record is
    computed from the base accuracy 20, and the whole run is the one of the
    same request with the accuracy property left out. *)
Theorem C10_zero_accuracy_is_default :
  (∀ (gw : Gateway) (now : Z) (body location : gmap string value) (devices : list value),
     direct_report body location devices →
     location !!! "accuracy" = VNum (Finite 0) →
     stored (trace (post_location gw now (VObj body))) =
       map (λ d, (field "id" d,
                  LocationTimestamp (field "id" d) now
                    (<["accuracy" := VNum (num_add (Finite 20)
                                             (number_of (field "distance" d)))]> location)))
           (filter (λ d, has_id d = true) devices) ∧
     post_location gw now (VObj (<["location" := VObj (delete "accuracy" location)]> body)) =
       post_location gw now (VObj body)) ∧
  (∀ (gw : Gateway) (now : Z) (body : gmap string value) (name : string)
     (document : gmap string value) (devices : list value),
     flagged_report gw body name document devices →
     document !!! "accuracy" = VNum (Finite 0) →
     stored (trace (post_location gw now (VObj body))) =
       map (λ d, (field "id" d,
                  LocationTimestamp (field "id" d) now
                    (<["accuracy" := VNum (num_add (Finite 20)
                                             (num_mul (number_of (field "distance" d))
                                                      (number_of (document !!! "multi"))))]>
                       document)))
           (filter (λ d, has_id d = true) devices) ∧
     post_location (with_document gw ("flag/" +:+ name) (delete "accuracy" document)) now
         (VObj body) =
       post_location gw now (VObj body)).
Proof.
  split.
  - intros gw now body location devices Hreport Hzero.
    pose proof (base_accuracy_zero _ Hzero) as Hbase.
    split.
    + destruct (direct_path_stored gw now _ _ _ Hreport) as (_ & _ & ->).
      unfold direct_record. by rewrite Hbase.
    + destruct Hreport as (Hflag & Hloc & Hlon & Hlat & Hacc & Hdev & Hentries).
      assert (Hreport' : direct_report (<["location" := VObj (delete "accuracy" location)]> body)
                           (delete "accuracy" location) devices).
      { split_and!.
        - by rewrite lookup_total_insert_ne.
        - by rewrite lookup_total_insert_eq.
        - by rewrite lookup_total_delete_ne.
        - by rewrite lookup_total_delete_ne.
        - by rewrite base_accuracy_absent.
        - by rewrite lookup_total_insert_ne.
        - done. }
      rewrite (direct_path gw now _ _ _ Hreport').
      rewrite (direct_path gw now body location devices) by done.
      assert (Hrecords : map (direct_record now (delete "accuracy" location)) devices =
                         map (direct_record now location) devices).
      { apply map_ext. intros d. unfold direct_record.
        by rewrite base_accuracy_absent, Hbase, insert_delete_eq. }
      by rewrite Hrecords.
  - intros gw now body name document devices Hreport Hzero.
    pose proof (base_accuracy_zero _ Hzero) as Hbase.
    split.
    + destruct (flag_path_stored gw now _ _ _ _ Hreport) as (_ & _ & ->).
      unfold flagged_record. by rewrite Hbase.
    + destruct Hreport as (Hflag & Hname & Hget & Hacc & Hmulti & Hdev & Hentries).
      assert (Hreport' : flagged_report
                           (with_document gw ("flag/" +:+ name) (delete "accuracy" document))
                           body name (delete "accuracy" document) devices).
      { split_and!; try done.
        - cbn. by rewrite String.eqb_refl.
        - by rewrite base_accuracy_absent.
        - by rewrite lookup_total_delete_ne. }
      rewrite (flag_path _ now _ _ _ _ Hreport').
      rewrite (flag_path gw now body name document devices) by done.
      assert (Hrecords : map (flagged_record now (delete "accuracy" document)) devices =
                         map (flagged_record now document) devices).
      { apply map_ext. intros d. unfold flagged_record.
        rewrite base_accuracy_absent, Hbase, insert_delete_eq.
        by rewrite lookup_total_delete_ne. }
      by rewrite Hrecords.
Qed.

Lemma C10_zero_accuracy_is_default_witness :
  stored (trace (post_location (flag_store ∅) 1000 (VObj zero_accuracy_scenario))) =
  [(VStr "d1", LocationTimestamp (VStr "d1") 1000
                 (<["accuracy" := num 25]> direct_location))].
Proof.
  assert (Hreport : direct_report zero_accuracy_scenario
                      (<["accuracy" := num 0]> direct_location) [device "d1" 5]).
  { unfold direct_report. split_and!; try reflexivity. vm_compute. eauto. }
  rewrite (proj1 (proj1 C10_zero_accuracy_is_default (flag_store ∅) 1000
             zero_accuracy_scenario (<["accuracy" := num 0]> direct_location)
             [device "d1" 5] Hreport eq_refl)).
  vm_compute. reflexivity.
Defined.

(** * Further properties of the route *)

(** ** Every run has one of ten shapes *)

Lemma bind_lift_throw {A B} (e : js_error) (f : A → M B) :
  lift (Throw e) ≫= f = lift (Throw e).
Proof. reflexivity. Qed.

Lemma bind_lift_unsupported {A B} (f : A → M B) :
  lift Unsupported ≫= f = lift Unsupported.
Proof. reflexivity. Qed.

(** Mapping an iteratee that makes no call: the results of all entries, or
    the first failure. *)
Lemma mapM_lift_cases {A B} (f : A → M B) (P : A → B → Prop) (l : list A) :
  (∀ x, (∃ y, f x = lift (Ok y) ∧ P x y) ∨ (∃ e, f x = lift (Throw e)) ∨ f x = lift Unsupported) →
  (∃ ys, mapM f l = lift (Ok ys) ∧ Forall2 P l ys) ∨
  (∃ e, mapM f l = lift (Throw e)) ∨
  mapM f l = lift Unsupported.
Proof.
  intros Hf. induction l as [|x l IH].
  - left. exists []. split; [done|constructor].
  - rewrite mapM_cons.
    destruct (Hf x) as [(y & -> & Hy)|[(e & ->)| ->]].
    + rewrite bind_lift_ok.
      destruct IH as [(ys & -> & Hys)|[(e & ->)| ->]].
      * left. exists (y :: ys). rewrite bind_lift_ok. split; [done|by constructor].
      * right; left. by exists e.
      * by right; right.
    + right; left. by exists e.
    + by right; right.
Qed.

Lemma nullish_cases (v : value) :
  v = VUndefined ∨ v = VNull ∨ (v ≠ VUndefined ∧ v ≠ VNull).
Proof. destruct v; auto. Qed.

Lemma direct_device_cases (now : Z) (base : gmap string value) (device : value) :
  let f := λ device,
    distance ← lift (get_prop "distance" device);
    accuracy ← lift (direct_accuracy (js_or (base !!! "accuracy") (VNum (Finite 20))) distance);
    id ← lift (get_prop "id" device);
    lift (locationTimestamp_of accuracy id
            (VObj (<["timestamp" := VNum (Finite now)]> {["location" := VObj base]}))) in
  (∃ y, f device = lift (Ok y) ∧ built_for now base device y) ∨
  (∃ e, f device = lift (Throw e)) ∨
  f device = lift Unsupported.
Proof.
  cbv zeta.
  destruct (nullish_cases device) as [->|[->|[Hu Hn]]];
    [right; left; by eexists..|].
  rewrite !(get_prop_field _ device), bind_lift_ok by done.
  unfold direct_accuracy, js_add, arith.
  destruct (to_number (js_or (base !!! "accuracy") (VNum (Finite 20)))) as [a|];
    [|by right; right].
  destruct (to_number (field "distance" device)) as [x|]; [|by right; right].
  left. eexists. rewrite !bind_lift_ok, locationTimestamp_of_spec.
  split; [done|]. split_and!; [done..|]. by eexists.
Qed.

Lemma flagged_device_cases (now : Z) (document : gmap string value) (device : value) :
  let f := λ device,
    distance ← lift (get_prop "distance" device);
    multi ← lift (get_prop "multi" (VObj document));
    accuracy ← lift (flagged_accuracy (js_or (document !!! "accuracy") (VNum (Finite 20)))
                       distance multi);
    id ← lift (get_prop "id" device);
    lift (locationTimestamp_of accuracy id
            (VObj (<["timestamp" := VNum (Finite now)]> {["location" := VObj document]}))) in
  (∃ y, f device = lift (Ok y) ∧ built_for now document device y) ∨
  (∃ e, f device = lift (Throw e)) ∨
  f device = lift Unsupported.
Proof.
  cbv zeta.
  destruct (nullish_cases device) as [->|[->|[Hu Hn]]];
    [right; left; by eexists..|].
  rewrite !(get_prop_field _ device), get_prop_obj, !bind_lift_ok by done.
  unfold flagged_accuracy, js_mul, js_add, arith.
  destruct (to_number (field "distance" device)) as [x|]; [|by right; right].
  destruct (to_number (document !!! "multi")) as [m|]; [|by right; right].
  rewrite res_bind_ok. cbn [to_number].
  destruct (to_number (js_or (document !!! "accuracy") (VNum (Finite 20)))) as [a|];
    [|by right; right].
  left. eexists. rewrite !bind_lift_ok, locationTimestamp_of_spec.
  split; [done|]. split_and!; [done..|]. by eexists.
Qed.

Lemma built_for_objects (now : Z) (base : gmap string value) (devices records : list value) :
  Forall2 (built_for now base) devices records → Forall is_object records.
Proof.
  induction 1 as [|d r ds rs (_ & _ & n & ->) _ IH]; constructor; [|done].
  apply LocationTimestamp_is_object.
Qed.

Lemma truthy_coordinates_object (location : value) :
  truthy (field "longitude" location) = true → ∃ base, location = VObj base.
Proof. destruct location; try done. by eexists. Qed.

(** The direct path once the two checks have passed. *)
Lemma direct_run (gw : Gateway) (now : Z) (body base : gmap string value)
    (devices : list value) :
  truthy (body !!! "flag") = false →
  body !!! "location" = VObj base →
  truthy (base !!! "longitude") = true →
  truthy (base !!! "latitude") = true →
  body !!! "devices" = VArr devices →
  route_run gw now (VObj body) (post_location gw now (VObj body)).
Proof.
  intros Hflag Hloc Hlon Hlat Hdev.
  enter_direct_path body base Hflag Hloc Hlon Hlat.
  rewrite Hdev, (bind_lift_ok (VArr devices)). cbn [isArray negb].
  rewrite bind_lift_ok. unfold lodash_map.
  destruct (mapM_lift_cases _ (built_for now base) devices
              (direct_device_cases now base)) as [(records & -> & Hrecords)|[(e & ->)| ->]].
  - rewrite bind_lift_ok, persist_spec by (by eapply built_for_objects).
    apply (run_direct gw now (VObj body) base records); cbn [field]; [done..|].
    by rewrite Hdev.
  - by apply run_thrown.
  - by apply run_unsupported.
Qed.

(** Runs the route up to the call of [firebaseService.get], for a report
    whose flag is truthy and has the string form [name]. *)
Ltac enter_flag_path_of body name Htruthy Htemplate :=
  unfold post_location, location_route, handleFlaggedRequest;
  rewrite !(get_prop_obj "flag" body), !(bind_lift_ok (body !!! "flag"));
  rewrite Htruthy, Htemplate, (bind_lift_ok name), bind_emit.

(** The flag path once the flag's document has been read. *)
Lemma flagged_run (gw : Gateway) (now : Z) (body : gmap string value) (name : string)
    (document : gmap string value) :
  truthy (body !!! "flag") = true →
  template (body !!! "flag") = Ok name →
  get gw ("flag/" +:+ name) = Resolved (Some document) →
  route_run gw now (VObj body) (post_location gw now (VObj body)).
Proof.
  intros Hflag Hname Hget.
  enter_flag_path_of body name Hflag Hname.
  rewrite Hget. cbn [from_option truthy negb].
  rewrite bind_ret, (get_prop_obj "accuracy"), (bind_lift_ok (document !!! "accuracy")).
  rewrite (get_prop_obj "devices" body), (bind_lift_ok (body !!! "devices")).
  unfold lodash_map.
  destruct (body !!! "devices") as [| |b|n|s|devices|fields] eqn:Hdev;
    try (by apply (run_flag_unsupported gw now (VObj body) name document));
    try (rewrite bind_ret, persist_spec by constructor;
         apply (run_flagged gw now (VObj body) name document []); cbn [field];
         [done..|rewrite Hdev; constructor]).
  destruct (mapM_lift_cases _ (built_for now document) devices
              (flagged_device_cases now document)) as [(records & -> & Hrecords)|[(e & ->)| ->]].
  - rewrite bind_lift_ok, persist_spec by (by eapply built_for_objects).
    apply (run_flagged gw now (VObj body) name document records); cbn [field]; [done..|].
    by rewrite Hdev.
  - by apply (run_flag_thrown gw now (VObj body) name document e).
  - by apply (run_flag_unsupported gw now (VObj body) name document).
Qed.

Lemma devices_not_array_rejected (gw : Gateway) (now : Z) (body location : gmap string value) :
  truthy (body !!! "flag") = false →
  body !!! "location" = VObj location →
  truthy (location !!! "longitude") = true →
  truthy (location !!! "latitude") = true →
  isArray (body !!! "devices") = false →
  post_location gw now (VObj body) =
    Run [Respond 400 (Json 400 "Devices data is invalid")] (Ok tt).
Proof.
  intros Hflag Hloc Hlon Hlat Hdev.
  enter_direct_path body location Hflag Hloc Hlon Hlat.
  rewrite bind_lift_ok, Hdev. reflexivity.
Qed.

(** Whatever the body and the gateway, the run has one of the shapes. *)
Lemma post_location_run (gw : Gateway) (now : Z) (body : value) :
  route_run gw now body (post_location gw now body).
Proof.
  destruct body as [| |b|n|s|items|body];
    try (by apply run_thrown); try (apply run_invalid; by auto).
  destruct (truthy (body !!! "flag")) eqn:Hflag.
  - destruct (template (body !!! "flag")) as [name|e|] eqn:Hname.
    + destruct (get gw ("flag/" +:+ name)) as [[document|]|message] eqn:Hget.
      * by eapply flagged_run.
      * enter_flag_path_of body name Hflag Hname. rewrite Hget.
        by apply (run_flag_absent gw now (VObj body) name).
      * enter_flag_path_of body name Hflag Hname. rewrite Hget.
        by apply (run_get_rejected gw now (VObj body) name message).
    + by destruct (body !!! "flag") as [| |[]|[|z|[]]| | |]; cbn in Hname;
        try destruct (Z.abs z <? 10 ^ 21).
    + unfold post_location, location_route, handleFlaggedRequest.
      rewrite !(get_prop_obj "flag"), !(bind_lift_ok (body !!! "flag")), Hflag, Hname.
      by apply run_flag_unprintable.
  - destruct (truthy (body !!! "location")
              && truthy (field "longitude" (body !!! "location"))
              && truthy (field "latitude" (body !!! "location"))) eqn:Hvalid.
    + apply andb_true_iff in Hvalid as [[Hloc Hlon]%andb_true_iff Hlat].
      destruct (truthy_coordinates_object _ Hlon) as [base Hbase].
      rewrite Hbase in Hlon, Hlat. cbn [field] in Hlon, Hlat.
      destruct (isArray (body !!! "devices")) eqn:Harray.
      * destruct (body !!! "devices") as [| | | | |devices|] eqn:Hdev; try done.
        by eapply direct_run.
      * rewrite (devices_not_array_rejected gw now body base) by done.
        apply run_invalid; by auto.
    + rewrite invalid_location_rejected by done. apply run_invalid; by auto.
Qed.

(** ** Reading the trace of the writes and of the closing *)

Lemma response_head (t : list event) : response t = head (responses t).
Proof. reflexivity. Qed.

Lemma responses_store_events (ws : list (value * value)) : responses (map store_event ws) = [].
Proof. induction ws as [|[id r] ws IH]; [done|]. apply IH. Qed.

Lemma logged_store_events (ws : list (value * value)) : logged (map store_event ws) = [].
Proof. induction ws as [|[id r] ws IH]; [done|]. apply IH. Qed.

Lemma derived_store_events (ws : list (value * value)) : derived (map store_event ws) = [].
Proof. induction ws as [|[id r] ws IH]; [done|]. apply IH. Qed.

Lemma logged_closing (gw : Gateway) (records : list value) : logged (closing gw records) = [].
Proof. unfold closing. by destruct (Promise_all _). Qed.

Lemma Promise_all_resolved (promises : list (settled unit)) :
  (∃ u, Promise_all promises = Resolved u) ↔ Forall (λ p, p = Resolved tt) promises.
Proof.
  induction promises as [|[[]|message] promises IH]; cbn.
  - split; [constructor | by eexists].
  - rewrite IH. split; [by constructor | by inversion 1].
  - split; [by intros [u ?] | by inversion 1].
Qed.

Lemma Promise_all_rejected (promises : list (settled unit)) (message : string) :
  Promise_all promises = Rejected message → Rejected message ∈ promises.
Proof.
  induction promises as [|[[]|m] promises IH]; cbn; [done| |].
  - intros H. right. by apply IH.
  - intros [= ->]. left.
Qed.

(** How a request is closed: with 200, and the derived computation on all
    records, when every write resolves; otherwise with 500 and the message
    of a rejected write, and no derived computation. *)
Lemma closing_cases (gw : Gateway) (records : list value) :
  (Forall (λ w, storeRaw gw w.1 w.2 = Resolved tt) (writes records) ∧
   closing gw records = [Respond 200 Empty; CalculateDerived records]) ∨
  (∃ message,
     Exists (λ w, storeRaw gw w.1 w.2 = Rejected message) (writes records) ∧
     closing gw records =
       [Respond 500 (JsonError 500 "Error while updating data: " (Rejection message))]).
Proof.
  unfold closing.
  destruct (Promise_all _) as [u|message] eqn:Hall.
  - left. split; [|done].
    assert (Hres : ∃ u, Promise_all (map (λ w, storeRaw gw w.1 w.2) (writes records)) = Resolved u)
      by eauto.
    apply Promise_all_resolved in Hres. by apply Forall_map in Hres.
  - right. exists message. split; [|done].
    apply Promise_all_rejected, list_elem_of_fmap in Hall as (w & Hw & Hin).
    apply Exists_exists. by exists w.
Qed.

Lemma writes_spec (records : list value) (id record : value) :
  (id, record) ∈ writes records ↔
  record ∈ records ∧ id = field "id" record ∧ truthy id = true.
Proof.
  unfold writes. rewrite list_elem_of_omap. split.
  - intros (r & Hr & Hsome).
    destruct (truthy (field "id" r)) eqn:Hid; [|done].
    injection Hsome as <- <-. done.
  - intros (Hr & -> & Hid). exists record. by rewrite Hid.
Qed.

Lemma responses_written (gw : Gateway) (records : list value) :
  ∃ status reply,
    responses (map store_event (writes records) ++ closing gw records) = [(status, reply)] ∧
    (status = 200 ∧ reply = Empty ∧
       derived (map store_event (writes records) ++ closing gw records) = [records] ∧
       last (map store_event (writes records) ++ closing gw records)
         = Some (CalculateDerived records) ∧
       Forall (λ w, storeRaw gw w.1 w.2 = Resolved tt) (writes records)
     ∨
     status = 500 ∧
       derived (map store_event (writes records) ++ closing gw records) = [] ∧
       ∃ message,
         reply = JsonError 500 "Error while updating data: " (Rejection message) ∧
         Exists (λ w, storeRaw gw w.1 w.2 = Rejected message) (writes records)).
Proof.
  unfold responses, derived. rewrite !omap_app.
  rewrite (responses_store_events _), (derived_store_events _).
  destruct (closing_cases gw records) as [[Hall ->]|(message & Hsome & ->)].
  - exists 200, Empty. split; [done|]. left. split_and!; try done.
    by rewrite last_app.
  - eexists 500, _. split; [done|]. right. split_and!; try done. by exists message.
Qed.

Lemma logged_written (gw : Gateway) (records : list value) :
  logged (map store_event (writes records) ++ closing gw records) = [].
Proof. unfold logged. by rewrite omap_app, (logged_store_events _), (logged_closing _ _). Qed.

(** X1: a run that stays inside the modelled fragment always answers the
    caller: the trace holds a response, and the first one has status 200,
    400 or 500. *)
Theorem route_always_answers (gw : Gateway) (now : Z) (body : value) :
  outcome (post_location gw now body) = Ok tt →
  ∃ status reply,
    response (trace (post_location gw now body)) = Some (status, reply) ∧
    (status = 200 ∨ status = 400 ∨ status = 500).
Proof.
  pose proof (post_location_run gw now body) as Hrun.
  destruct Hrun as [e|message| base records _ _ _| | |name message|name|name document e|
                    name document|name document records]; cbn [outcome trace];
    intros Hok; try discriminate; try (by eexists _, _; split; [reflexivity|auto]).
  - rewrite response_head.
    destruct (responses_written gw records) as (status & reply & -> & [(-> & _)|(-> & _)]);
      eexists _, _; (split; [reflexivity|auto]).
  - rewrite response_head. change (responses (Get ?k :: ?t)) with (responses t).
    destruct (responses_written gw records) as (status & reply & -> & [(-> & _)|(-> & _)]);
      eexists _, _; (split; [reflexivity|auto]).
Qed.

Lemma route_always_answers_witness :
  ∃ status reply,
    response (trace (post_location (flag_store ∅) 1000 (VObj direct_scenario)))
      = Some (status, reply) ∧
    (status = 200 ∨ status = 400 ∨ status = 500).
Proof.
  apply (route_always_answers (flag_store ∅) 1000 (VObj direct_scenario)).
  vm_compute. reflexivity.
Defined.






Lemma stored_written (gw : Gateway) (records : list value) :
  stored (map store_event (writes records) ++ closing gw records) = writes records.
Proof. apply writes_trace. Qed.




(** X5: on a run inside the modelled fragment, the derived computation is
    started at most once, as the very last thing, and only on a request
    answered with 200: every write issued has then resolved, every record
    written is among the records handed over, and these are one per entry of
    [devices] (none when [devices] is not an array), with or without id. *)
Theorem derived_only_after_success (gw : Gateway) (now : Z) (body : value)
    (records : list value) :
  outcome (post_location gw now body) = Ok tt →
  records ∈ derived (trace (post_location gw now body)) →
  derived (trace (post_location gw now body)) = [records] ∧
  last (trace (post_location gw now body)) = Some (CalculateDerived records) ∧
  responses (trace (post_location gw now body)) = [(200, Empty)] ∧
  length records = length (items_of (field "devices" body)) ∧
  ∀ id record, (id, record) ∈ stored (trace (post_location gw now body)) →
    record ∈ records ∧ storeRaw gw id record = Resolved tt.
Proof.
  pose proof (post_location_run gw now body) as Hrun.
  destruct Hrun as [e|message| base rs Hflag Hloc Hbuilt| | |name message|name|
                    name document e|name document|name document rs Hflag Hname Hget Hbuilt];
    cbn [outcome trace]; intros Hok Hin;
    try (by apply elem_of_nil in Hin).
  - rewrite stored_written.
    destruct (responses_written gw rs)
      as (status & reply & -> & [(-> & -> & Hd & Hlast & Hall)|(-> & Hd & _)]);
      rewrite Hd in *; [|by apply elem_of_nil in Hin].
    apply list_elem_of_singleton in Hin as ->.
    split_and!; try done; [symmetry; by eapply Forall2_length|].
    intros id record Hw. split; [by apply writes_spec in Hw as (? & _)|].
    rewrite Forall_forall in Hall. by apply (Hall (id, record)).
  - change (derived (Get ?k :: ?t)) with (derived t) in *.
    change (responses (Get ?k :: ?t)) with (responses t).
    change (stored (Get ?k :: ?t)) with (stored t).
    rewrite stored_written.
    destruct (responses_written gw rs)
      as (status & reply & -> & [(-> & -> & Hd & Hlast & Hall)|(-> & Hd & _)]);
      rewrite Hd in *; [|by apply elem_of_nil in Hin].
    apply list_elem_of_singleton in Hin as ->.
    split_and!; try done.
    + rewrite last_cons, Hlast. done.
    + symmetry; by eapply Forall2_length.
    + intros id record Hw. split; [by apply writes_spec in Hw as (? & _)|].
      rewrite Forall_forall in Hall. by apply (Hall (id, record)).
Qed.

Lemma derived_only_after_success_witness :
  responses (trace (post_location (flag_store ∅) 1000 (VObj direct_scenario))) = [(200, Empty)].
Proof.
  refine (proj1 (proj2 (proj2 (derived_only_after_success (flag_store ∅) 1000
            (VObj direct_scenario)
            [LocationTimestamp (VStr "d1") 1000 (<["accuracy" := num 15]> direct_location)]
            _ _)))).
  - vm_compute. reflexivity.
  - vm_compute. left.
Defined.

(** X6: a run that logs an error has written nothing and starts no derived
    computation, and the caller receives status 500.  Errors are logged
    exactly where building the records failed or the flag could not be
    read, and both come before the first write. *)
Theorem logged_error_means_no_write (gw : Gateway) (now : Z) (body : value) (e : js_error) :
  e ∈ logged (trace (post_location gw now body)) →
  stored (trace (post_location gw now body)) = [] ∧
  derived (trace (post_location gw now body)) = [] ∧
  ∃ reply, response (trace (post_location gw now body)) = Some (500, reply).
Proof.
  pose proof (post_location_run gw now body) as Hrun.
  destruct Hrun as [e'|message| base rs Hflag Hloc Hbuilt| | |name message|name|
                    name document e'|name document|name document rs Hflag Hname Hget Hbuilt];
    cbn [outcome trace]; intros Hin;
    try (by apply elem_of_nil in Hin);
    try (by split_and!; [done..|eexists]).
  - rewrite logged_written in Hin. by apply elem_of_nil in Hin.
  - change (logged (Get ?k :: ?t)) with (logged t) in Hin.
    rewrite logged_written in Hin. by apply elem_of_nil in Hin.
Qed.

Lemma logged_error_means_no_write_witness :
  stored (trace (post_location (flag_store ∅) 1000
            (VObj (<["location" := VObj direct_location]>
                     {["devices" := VArr [device "d1" 5; VNull]]})))) = [].
Proof.
  refine (proj1 (logged_error_means_no_write (flag_store ∅) 1000
            (VObj (<["location" := VObj direct_location]>
                     {["devices" := VArr [device "d1" 5; VNull]]}))
            (TypeError "distance" VNull) _)).
  vm_compute. left.
Defined.

Lemma null_entry_no_write (gw : Gateway) (now : Z) (body : value)
    (devices : list value) :
  field "devices" body = VArr devices →
  VNull ∈ devices →
  stored (trace (post_location gw now body)) = [] ∧
  derived (trace (post_location gw now body)) = [].
Proof.
  intros Hdev Hnull.
  assert (Hno : ∀ base records,
            ¬ Forall2 (built_for now base) (items_of (field "devices" body)) records).
  { intros base records Hbuilt. rewrite Hdev in Hbuilt. cbn [items_of] in Hbuilt.
    apply list_elem_of_lookup in Hnull as [i Hi].
    destruct (Forall2_lookup_l _ _ _ _ _ Hbuilt Hi) as (r & _ & _ & Hn & _). done. }
  pose proof (post_location_run gw now body) as Hrun.
  destruct Hrun as [e'|message| base rs Hflag Hloc Hbuilt| | |name message|name|
                    name document e'|name document|name document rs Hflag Hname Hget Hbuilt];
    cbn [outcome trace]; try done; by destruct (Hno _ _ Hbuilt).
Qed.

(** X7: the records are all built before the first write.  If [devices] is
    an array with a [null] entry anywhere in it, nothing is written and no
    derived computation is started, whatever the other entries are and on
    either path. *)
Theorem null_entry_blocks_every_write (gw : Gateway) (now : Z) (body : value)
    (devices : list value) :
  field "devices" body = VArr devices →
  VNull ∈ devices →
  stored (trace (post_location gw now body)) = [] ∧
  derived (trace (post_location gw now body)) = [].
Proof. apply null_entry_no_write. Qed.

Lemma null_entry_blocks_every_write_witness :
  stored (trace (post_location (flag_store {["flag/zoneA" := zoneA_multi]}) 1000
            (VObj (<["flag" := VStr "zoneA"]>
                     {["devices" := VArr [device "d1" 5; VNull; device "d2" 1]]})))) = [].
Proof.
  refine (proj1 (null_entry_blocks_every_write (flag_store {["flag/zoneA" := zoneA_multi]}) 1000
            (VObj (<["flag" := VStr "zoneA"]>
                     {["devices" := VArr [device "d1" 5; VNull; device "d2" 1]]}))
            [device "d1" 5; VNull; device "d2" 1] _ _)).
  - reflexivity.
  - right; left.
Defined.

Lemma ids_written (now : Z) (base : gmap string value) (devices records : list value) :
  Forall2 (built_for now base) devices records →
  map fst (writes records) = map (field "id") (filter (λ d, has_id d = true) devices).
Proof.
  induction 1 as [|d r ds rs (_ & _ & n & ->) _ IH]; [done|].
  unfold writes in *. cbn [omap list_omap]. rewrite filter_cons, field_id_LocationTimestamp.
  destruct (decide (has_id d = true)) as [Hd|Hd]; unfold has_id in Hd.
  - rewrite Hd. cbn. by rewrite IH.
  - apply not_true_is_false in Hd. by rewrite Hd.
Qed.

(** X8: a rejected write does not stop the others and is not rolled back.
    On a run inside the modelled fragment, if one of the writes issued is
    rejected, the caller receives 500 with the message of a rejected write
    and no derived computation is started, while the trace still holds one
    write for every entry of [devices] that has a truthy id, in the order of
    the entries, those after the rejected one included. *)
Theorem rejected_write_fails_request_only (gw : Gateway) (now : Z) (body : value)
    (id record : value) (message : string) :
  outcome (post_location gw now body) = Ok tt →
  (id, record) ∈ stored (trace (post_location gw now body)) →
  storeRaw gw id record = Rejected message →
  derived (trace (post_location gw now body)) = [] ∧
  map fst (stored (trace (post_location gw now body))) =
    map (field "id") (filter (λ d, has_id d = true) (items_of (field "devices" body))) ∧
  ∃ message',
    responses (trace (post_location gw now body)) =
      [(500, JsonError 500 "Error while updating data: " (Rejection message'))] ∧
    Exists (λ w, storeRaw gw w.1 w.2 = Rejected message')
           (stored (trace (post_location gw now body))).
Proof.
  pose proof (post_location_run gw now body) as Hrun.
  destruct Hrun as [e'|msg| base rs Hflag Hloc Hbuilt| | |name msg|name|
                    name document e'|name document|name document rs Hflag Hname Hget Hbuilt];
    cbn [outcome trace]; intros Hok Hin Hrejected;
    try (by apply elem_of_nil in Hin).
  - rewrite stored_written in *.
    destruct (responses_written gw rs)
      as (status & reply & -> & [(-> & -> & _ & _ & Hall)|(-> & Hd & m & -> & Hsome)]).
    + rewrite Forall_forall in Hall. specialize (Hall _ Hin). cbn in Hall. congruence.
    + split_and!; [done|by eapply ids_written|]. by exists m.
  - change (derived (Get ?k :: ?t)) with (derived t).
    change (responses (Get ?k :: ?t)) with (responses t).
    change (stored (Get ?k :: ?t)) with (stored t) in *.
    rewrite stored_written in *.
    destruct (responses_written gw rs)
      as (status & reply & -> & [(-> & -> & _ & _ & Hall)|(-> & Hd & m & -> & Hsome)]).
    + rewrite Forall_forall in Hall. specialize (Hall _ Hin). cbn in Hall. congruence.
    + split_and!; [done|by eapply ids_written|]. by exists m.
Qed.

Lemma rejected_write_fails_request_only_witness :
  map fst (stored (trace (post_location
     {| get := λ _, Resolved None;
        storeRaw := λ id _, match id with VStr "d1" => Rejected "offline" | _ => Resolved tt end |}
     1000
     (VObj (<["location" := VObj direct_location]>
              {["devices" := VArr [device "d1" 5; device "d2" 1]]}))))) =
  [VStr "d1"; VStr "d2"].
Proof.
  refine (proj1 (proj2 (rejected_write_fails_request_only
     {| get := λ _, Resolved None;
        storeRaw := λ id _, match id with VStr "d1" => Rejected "offline" | _ => Resolved tt end |}
     1000
     (VObj (<["location" := VObj direct_location]>
              {["devices" := VArr [device "d1" 5; device "d2" 1]]}))
     (VStr "d1")
     (LocationTimestamp (VStr "d1") 1000 (<["accuracy" := num 15]> direct_location))
     "offline" _ _ _))).
  - vm_compute. reflexivity.
  - vm_compute. left.
  - reflexivity.
Defined.

(** X9: when reading the flag fails (the gateway rejects the read), the
    handler logs the rejection and answers 500 with its message; it looks
    at no device and writes nothing. *)
Theorem rejected_flag_read_fails_request (gw : Gateway) (now : Z) (body : gmap string value)
    (name message : string) :
  body !!! "flag" = VStr name →
  name ≠ "" →
  get gw ("flag/" +:+ name) = Rejected message →
  post_location gw now (VObj body) =
    Run [ Get ("flag/" +:+ name);
          LogError (Rejection message);
          Respond 500 (JsonError 500 "Error while updating data: " (Rejection message)) ]
        (Ok tt).
Proof.
  intros Hflag Hname Hget.
  enter_flag_path body name Hflag Hname. by rewrite Hget.
Qed.

Lemma rejected_flag_read_fails_request_witness :
  post_location {| get := λ _, Rejected "offline"; storeRaw := λ _ _, Resolved tt |} 1000
    (VObj zoneA_report) =
  Run [ Get "flag/zoneA"; LogError (Rejection "offline");
        Respond 500 (JsonError 500 "Error while updating data: " (Rejection "offline")) ]
      (Ok tt).
Proof.
  apply (rejected_flag_read_fails_request
           {| get := λ _, Rejected "offline"; storeRaw := λ _ _, Resolved tt |} 1000
           zoneA_report "zoneA" "offline"); [reflexivity | discriminate | reflexivity].
Defined.

(** X10: a flag that is present but falsy (the empty string, [null],
    [false], 0) is no flag: the run is the one of the same report with any
    other falsy flag, in particular of the report with [flag] left out. *)
Theorem falsy_flag_is_ignored (gw : Gateway) (now : Z) (body : gmap string value)
    (flag : value) :
  truthy (body !!! "flag") = false →
  truthy flag = false →
  post_location gw now (VObj (<["flag" := flag]> body)) = post_location gw now (VObj body) ∧
  post_location gw now (VObj (delete "flag" body)) = post_location gw now (VObj body).
Proof.
  intros Hflag Hfalsy. unfold post_location, location_route.
  rewrite !(get_prop_obj "flag"), lookup_total_insert_eq, lookup_total_delete_eq.
  rewrite (bind_lift_ok flag), (bind_lift_ok (body !!! "flag")), (bind_lift_ok inhabitant).
  rewrite Hflag, Hfalsy. cbn [truthy inhabitant value_inhabited].
  rewrite !get_prop_obj.
  rewrite !lookup_total_insert_ne, !lookup_total_delete_ne by done.
  done.
Qed.

Lemma falsy_flag_is_ignored_witness :
  post_location (flag_store {["flag/zoneA" := zoneA_multi]}) 1000
    (VObj (<["flag" := VStr ""]> direct_scenario)) =
  post_location (flag_store {["flag/zoneA" := zoneA_multi]}) 1000 (VObj direct_scenario).
Proof.
  apply (falsy_flag_is_ignored (flag_store {["flag/zoneA" := zoneA_multi]}) 1000
           direct_scenario (VStr "")); reflexivity.
Defined.

Lemma num_mul_NaN (x : number) : num_mul x NaN = NaN.
Proof. by destruct x. Qed.

Lemma num_add_NaN (x : number) : num_add x NaN = NaN.
Proof. by destruct x. Qed.

Lemma num_mul_one (x : number) : num_mul x (Finite 1) = x.
Proof.
  destruct x as [|z|s]; [done| |]; cbn.
  - by rewrite Z.mul_1_r.
  - by rewrite xorb_false_r.
Qed.

(** X11: a stored flag document without a [multi] property makes every
    accuracy [NaN]: each device entry with an id is still written, under its
    id and with the document as location, but with accuracy [NaN] whatever
    its distance and whatever the document's accuracy. *)
Theorem missing_multi_gives_NaN (gw : Gateway) (now : Z) (body : gmap string value)
    (name : string) (document : gmap string value) (devices : list value) :
  flagged_report gw body name document devices →
  document !! "multi" = None →
  stored (trace (post_location gw now (VObj body))) =
    map (λ d, (field "id" d,
               LocationTimestamp (field "id" d) now (<["accuracy" := VNum NaN]> document)))
        (filter (λ d, has_id d = true) devices).
Proof.
  intros Hreport Hmulti.
  destruct (flag_path_stored gw now _ _ _ _ Hreport) as (_ & _ & ->).
  apply map_ext. intros d. unfold flagged_record.
  rewrite (lookup_total_alt document), Hmulti. cbn [default number_of to_number inhabitant
    value_inhabited].
  by rewrite num_mul_NaN, num_add_NaN.
Qed.

Lemma missing_multi_gives_NaN_witness :
  stored (trace (post_location (flag_store {["flag/zoneA" := zoneA_multiplier]}) 1000
                   (VObj zoneA_report))) =
    map (λ d, (field "id" d,
               LocationTimestamp (field "id" d) 1000
                 (<["accuracy" := VNum NaN]> zoneA_multiplier)))
        (filter (λ d, has_id d = true) [device "d1" 2]).
Proof.
  apply (missing_multi_gives_NaN (flag_store {["flag/zoneA" := zoneA_multiplier]}) 1000
           zoneA_report "zoneA" zoneA_multiplier [device "d1" 2]).
  - unfold flagged_report. split_and!; try reflexivity; try discriminate; vm_compute; eauto.
  - reflexivity.
Defined.

(** X12: a device entry that has an id but no [distance] is not rejected:
    on either path it is written, with accuracy [NaN]. *)
Theorem missing_distance_gives_NaN (gw : Gateway) (now : Z) (body base : gmap string value)
    (devices : list value) (device : value) :
  direct_report body base devices ∨ (∃ name, flagged_report gw body name base devices) →
  device ∈ devices →
  has_id device = true →
  field "distance" device = VUndefined →
  (field "id" device,
   LocationTimestamp (field "id" device) now (<["accuracy" := VNum NaN]> base))
  ∈ stored (trace (post_location gw now (VObj body))).
Proof.
  intros Hreport Hin Hid Hdistance.
  assert (Hfiltered : device ∈ filter (λ d, has_id d = true) devices)
    by (by apply list_elem_of_filter).
  destruct Hreport as [Hdirect|[name Hflagged]].
  - destruct (direct_path_stored gw now _ _ _ Hdirect) as (_ & _ & ->).
    apply list_elem_of_fmap. exists device. split; [|done].
    unfold direct_record. rewrite Hdistance. cbn [number_of to_number default].
    by rewrite num_add_NaN.
  - destruct (flag_path_stored gw now _ _ _ _ Hflagged) as (_ & _ & ->).
    apply list_elem_of_fmap. exists device. split; [|done].
    unfold flagged_record. rewrite Hdistance. cbn [number_of to_number default].
    by rewrite num_add_NaN.
Qed.

Lemma missing_distance_gives_NaN_witness :
  (VStr "d9", LocationTimestamp (VStr "d9") 1000 (<["accuracy" := VNum NaN]> direct_location))
  ∈ stored (trace (post_location (flag_store ∅) 1000
       (VObj (<["location" := VObj direct_location]>
                {["devices" := VArr [VObj {["id" := VStr "d9"]}]]})))).
Proof.
  assert (Hreport : direct_report
                      (<["location" := VObj direct_location]>
                         {["devices" := VArr [VObj {["id" := VStr "d9"]}]]})
                      direct_location [VObj {["id" := VStr "d9"]}]).
  { unfold direct_report. split_and!; try reflexivity. vm_compute. eauto. }
  pose proof (missing_distance_gives_NaN (flag_store ∅) 1000 _ direct_location
                [VObj {["id" := VStr "d9"]}] (VObj {["id" := VStr "d9"]})
                (or_introl Hreport) (list_elem_of_here _ _) eq_refl eq_refl) as Hin.
  vm_compute in Hin. vm_compute. exact Hin.
Defined.

(** X13: the direct path is the flag path with multiplier 1.  A flagged
    report whose stored document has [multi] 1 runs exactly like a direct
    report that carries this document as its location and the same devices,
    after the one read of the flag. *)
Theorem flag_with_multi_one_is_direct (gw : Gateway) (now : Z)
    (flagged direct : gmap string value) (name : string)
    (document : gmap string value) (devices : list value) :
  flagged_report gw flagged name document devices →
  direct_report direct document devices →
  document !!! "multi" = VNum (Finite 1) →
  post_location gw now (VObj flagged) =
    Run (Get ("flag/" +:+ name) :: trace (post_location gw now (VObj direct))) (Ok tt).
Proof.
  intros Hflagged Hdirect Hone.
  rewrite (flag_path gw now _ _ _ _ Hflagged), (direct_path gw now _ _ _ Hdirect).
  cbn [trace].
  assert (Hrecords : map (flagged_record now document) devices =
                     map (direct_record now document) devices).
  { apply map_ext. intros d. unfold flagged_record, direct_record.
    rewrite Hone. cbn [number_of to_number default]. by rewrite num_mul_one. }
  by rewrite Hrecords.
Qed.

Lemma flag_with_multi_one_is_direct_witness :
  post_location (flag_store {["flag/zoneA" := <["multi" := num 1]> direct_location]}) 1000
    (VObj zoneA_report) =
  Run (Get "flag/zoneA" ::
       trace (post_location (flag_store {["flag/zoneA" := <["multi" := num 1]> direct_location]})
                1000
                (VObj (<["location" := VObj (<["multi" := num 1]> direct_location)]>
                         {["devices" := VArr [device "d1" 2]]}))))
      (Ok tt).
Proof.
  apply (flag_with_multi_one_is_direct
           (flag_store {["flag/zoneA" := <["multi" := num 1]> direct_location]}) 1000
           zoneA_report
           (<["location" := VObj (<["multi" := num 1]> direct_location)]>
              {["devices" := VArr [device "d1" 2]]})
           "zoneA" (<["multi" := num 1]> direct_location) [device "d1" 2]).
  - unfold flagged_report. split_and!; try reflexivity; try discriminate; vm_compute; eauto.
  - unfold direct_report. split_and!; try reflexivity. vm_compute. eauto.
  - reflexivity.
Defined.

(** * The earlier revision of the route *)

(** The record that line 81 of [server.js] assembles. *)
Lemma locationTimestamp_v1_spec (n : number) (now : Z) (location : gmap string value) :
  defaultsDeep (VObj ∅)
    [ VObj {["location" := VObj {["accuracy" := VNum n]}]};
      VObj (<["timestamp" := VNum (Finite now)]> {["location" := VObj location]}) ] =
  Ok (VObj (<["timestamp" := VNum (Finite now)]>
              {["location" := VObj (<["accuracy" := VNum n]> location)]})).
Proof.
  rewrite defaultsDeep_two.
  rewrite defaults_fresh by (intros k _; by rewrite lookup_total_empty).
  rewrite (right_id_L ∅ (∪)), res_bind_ok.
  rewrite (defaults_fields (λ k sv,
    if decide (k = "location") then VObj (<["accuracy" := VNum n]> location) else sv)).
  - generalize (VObj (<["accuracy" := VNum n]> location)); intros x.
    generalize (VObj {["accuracy" := VNum n]}); intros y.
    reflexivity.
  - intros k sv Hk. rewrite lookup_insert in Hk.
    destruct (decide ("timestamp" = k)) as [<-|Hne].
    + injection Hk as <-. rewrite decide_False by done.
      apply defaultsValue_undefined.
    + rewrite lookup_singleton in Hk.
      destruct (decide ("location" = k)) as [<-|]; [|done].
      injection Hk as <-. rewrite decide_True by done.
      apply defaults_accuracy.
Qed.

(** Mapping an iteratee whose calls and result are known for each entry. *)
Lemma mapM_events {A B} (f : A → M B) (ev : A → list event) (g : A → B) (l : list A) :
  Forall (λ x, f x = Run (ev x) (Ok (g x))) l →
  mapM f l = Run (concat (map ev l)) (Ok (map g l)).
Proof.
  induction 1 as [|x l Hx _ IH]; [done|].
  rewrite mapM_cons, Hx, IH, bind_run_ok, bind_run_ret. cbn [trace outcome map concat].
  done.
Qed.

(** The same when an entry in the middle throws: the calls of the entries
    before it have been made. *)
Lemma mapM_events_throw {A B} (f : A → M B) (ev : A → list event) (g : A → B)
    (e : js_error) (before : list A) (x : A) (after : list A) :
  Forall (λ x, f x = Run (ev x) (Ok (g x))) before →
  f x = lift (Throw e) →
  mapM f (before ++ x :: after) = Run (concat (map ev before)) (Throw e).
Proof.
  intros Hbefore Hx. induction Hbefore as [|y l Hy _ IH].
  - cbn [app]. by rewrite mapM_cons, Hx.
  - cbn [app]. rewrite mapM_cons, Hy, IH, bind_run_ok. cbn [trace outcome map concat].
    unfold mbind, M_bind. cbn [outcome trace]. done.
Qed.

Lemma v1_device (gw : Gateway) (now : Z) (location : gmap string value) (device : value) :
  is_Some (to_number (base_accuracy location)) →
  device_entry device = true →
  (id ← lift (get_prop "id" device);
   if negb (truthy id) then mret (Resolved tt)
   else
     distance ← lift (get_prop "distance" device);
     accuracy ← lift (direct_accuracy (js_or (location !!! "accuracy") (VNum (Finite 20)))
                        distance);
     locationTimestamp ← lift (defaultsDeep (VObj ∅)
       [ VObj {["location" := VObj {["accuracy" := accuracy]}]};
         VObj (<["timestamp" := VNum (Finite now)]> {["location" := VObj location]}) ]);
     _ ← emit (StoreRaw id locationTimestamp);
     mret (storeRaw gw id locationTimestamp)) =
  Run (v1_events now location device) (Ok (v1_promise gw now location device)).
Proof.
  intros Hbase (Hu & Hn & Hdist)%device_entry_inv.
  rewrite !(get_prop_field _ device), (bind_lift_ok (field "id" device)) by done.
  unfold v1_events, v1_promise, has_id.
  destruct (truthy (field "id" device)); cbn [negb]; [|done].
  rewrite bind_lift_ok. unfold direct_accuracy, js_add.
  rewrite arith_number_of, bind_lift_ok by done.
  by rewrite locationTimestamp_v1_spec, bind_lift_ok, emit_ret.
Qed.

Lemma v1_events_stored (now : Z) (location : gmap string value) (devices : list value) :
  stored (concat (map (v1_events now location) devices)) =
  map (λ d, (field "id" d, direct_record_v1 now location d))
      (filter (λ d, has_id d = true) devices).
Proof.
  induction devices as [|d devices IH]; [done|].
  cbn [map concat]. rewrite stored_app, IH, filter_cons. unfold v1_events.
  destruct (decide (has_id d = true)) as [Hd|Hd].
  - by rewrite Hd.
  - apply not_true_is_false in Hd. by rewrite Hd.
Qed.

(** Runs the earlier route through its two checks. *)
Ltac enter_v1 body location Hloc Hlon Hlat Hdev :=
  unfold post_location_v1, location_route_v1;
  rewrite !(get_prop_obj _ body), Hloc, bind_lift_ok;
  cbn [truthy negb];
  rewrite !(get_prop_obj _ location);
  rewrite (bind_lift_ok (location !!! "longitude")), Hlon;
  cbn [negb];
  rewrite (bind_lift_ok (location !!! "latitude")), Hlat, bind_ret;
  cbn [negb];
  rewrite Hdev, bind_lift_ok;
  cbn [isArray negb];
  rewrite bind_lift_ok;
  unfold lodash_map.

Lemma v1_path (gw : Gateway) (now : Z) (body location : gmap string value)
    (devices : list value) :
  body !!! "location" = VObj location →
  truthy (location !!! "longitude") = true →
  truthy (location !!! "latitude") = true →
  is_Some (to_number (base_accuracy location)) →
  body !!! "devices" = VArr devices →
  forallb device_entry devices = true →
  post_location_v1 gw now (VObj body) =
  Run (concat (map (v1_events now location) devices) ++
       match Promise_all (map (v1_promise gw now location) devices) with
       | Resolved _ => [Respond 200 Empty]
       | Rejected message =>
           [Respond 500 (JsonError 500 "Error while updating data: " (Rejection message))]
       end)
      (Ok tt).
Proof.
  intros Hloc Hlon Hlat Hbase Hdev Hentries.
  enter_v1 body location Hloc Hlon Hlat Hdev.
  rewrite (mapM_events _ (v1_events now location) (v1_promise gw now location)).
  - rewrite bind_run_ok. by destruct (Promise_all _).
  - eapply Forall_impl; [by apply entries_Forall|].
    intros d Hd. by apply v1_device.
Qed.

Lemma v1_events_quiet (now : Z) (location : gmap string value) (devices : list value) :
  reads (concat (map (v1_events now location) devices)) = [] ∧
  derived (concat (map (v1_events now location) devices)) = [].
Proof.
  induction devices as [|d devices [IHr IHd]]; [done|].
  cbn [map concat]. unfold reads, derived in *. rewrite !omap_app, IHr, IHd.
  unfold v1_events. by destruct (has_id d).
Qed.

(** X14: on a report that passes the checks of the direct path, the later
    revision of the route writes for the same device entries as the earlier
    one, under the same ids and in the same order, and each record it writes
    is the earlier revision's record with the property [id] added.  The
    earlier revision reads nothing from the gateway and starts no derived
    computation. *)
Theorem later_revision_adds_id (gw : Gateway) (now : Z) (body location : gmap string value)
    (devices : list value) :
  direct_report body location devices →
  reads (trace (post_location_v1 gw now (VObj body))) = [] ∧
  derived (trace (post_location_v1 gw now (VObj body))) = [] ∧
  Forall2 (λ earlier later : value * value,
             earlier.1 = later.1 ∧
             ∃ fields, earlier.2 = VObj fields ∧ fields !! "id" = None ∧
                       later.2 = VObj (<["id" := later.1]> fields))
          (stored (trace (post_location_v1 gw now (VObj body))))
          (stored (trace (post_location gw now (VObj body)))).
Proof.
  intros Hreport.
  destruct (direct_path_stored gw now _ _ _ Hreport) as (_ & _ & ->).
  destruct Hreport as (Hflag & Hloc & Hlon & Hlat & Hbase & Hdev & Hentries).
  rewrite (v1_path gw now body location devices) by done. cbn [trace].
  destruct (v1_events_quiet now location devices) as [Hreads Hderived].
  unfold reads, derived in *. rewrite !omap_app, Hreads, Hderived.
  split_and!.
  - by destruct (Promise_all _).
  - by destruct (Promise_all _).
  - rewrite stored_app, v1_events_stored.
    assert (Hclosing : ∀ p : settled unit,
              stored match p with
                     | Resolved _ => [Respond 200 Empty]
                     | Rejected message =>
                         [Respond 500 (JsonError 500 "Error while updating data: "
                                         (Rejection message))]
                     end = []) by (by intros []).
    rewrite Hclosing, app_nil_r.
    apply Forall2_fmap, Forall_Forall2_diag, Forall_true. intros d. cbn [fst snd].
    split; [done|]. unfold direct_record_v1, direct_record, LocationTimestamp.
    eexists. split_and!; [done| |done].
    rewrite lookup_insert_ne, lookup_singleton_ne; done.
Qed.

Lemma later_revision_adds_id_witness :
  reads (trace (post_location_v1 (flag_store ∅) 1000 (VObj direct_scenario))) = [].
Proof.
  refine (proj1 (later_revision_adds_id (flag_store ∅) 1000 direct_scenario
            direct_location [device "d1" 5] _)).
  unfold direct_report. split_and!; try reflexivity. vm_compute. eauto.
Defined.

(** X15: the earlier revision wrote entry by entry.  With a [null] entry in
    [devices], it had already issued the writes for the entries before it
    when the handler threw and the error middleware answered 500 "Unknown
    Error"; the later revision, on the same report, writes nothing. *)
Theorem earlier_revision_wrote_before_failing (gw : Gateway) (now : Z)
    (body location : gmap string value) (before after : list value) :
  body !!! "location" = VObj location →
  truthy (location !!! "longitude") = true →
  truthy (location !!! "latitude") = true →
  is_Some (to_number (base_accuracy location)) →
  body !!! "devices" = VArr (before ++ VNull :: after) →
  forallb device_entry before = true →
  post_location_v1 gw now (VObj body) =
    Run (concat (map (v1_events now location) before) ++
         [LogError (TypeError "id" VNull); Respond 500 (Json 500 "Unknown Error")])
        (Ok tt) ∧
  stored (trace (post_location_v1 gw now (VObj body))) =
    map (λ d, (field "id" d, direct_record_v1 now location d))
        (filter (λ d, has_id d = true) before) ∧
  stored (trace (post_location gw now (VObj body))) = [].
Proof.
  intros Hloc Hlon Hlat Hbase Hdev Hentries.
  assert (Hrun : post_location_v1 gw now (VObj body) =
            Run (concat (map (v1_events now location) before) ++
                 [LogError (TypeError "id" VNull); Respond 500 (Json 500 "Unknown Error")])
                (Ok tt)).
  { enter_v1 body location Hloc Hlon Hlat Hdev.
    rewrite (mapM_events_throw _ (v1_events now location) (v1_promise gw now location)
               (TypeError "id" VNull)).
    - reflexivity.
    - eapply Forall_impl; [by apply entries_Forall|].
      intros d Hd. by apply v1_device.
    - reflexivity. }
  split_and!; [done| |].
  - rewrite Hrun. cbn [trace]. by rewrite stored_app, v1_events_stored, app_nil_r.
  - eapply (null_entry_no_write gw now (VObj body)); [exact Hdev|].
    apply elem_of_app. right. left.
Qed.

Lemma earlier_revision_wrote_before_failing_witness :
  stored (trace (post_location_v1 (flag_store ∅) 1000
     (VObj (<["location" := VObj direct_location]>
              {["devices" := VArr [device "d1" 5; VNull; device "d2" 1]]})))) =
  [(VStr "d1",
    VObj (<["timestamp" := VNum (Finite 1000)]>
            {["location" := VObj (<["accuracy" := num 15]> direct_location)]}))].
Proof.
  pose proof (earlier_revision_wrote_before_failing (flag_store ∅) 1000
     (<["location" := VObj direct_location]>
        {["devices" := VArr [device "d1" 5; VNull; device "d2" 1]]})
     direct_location [device "d1" 5] [device "d2" 1]) as Hthm.
  destruct Hthm as (_ & Hstored & _);
    [reflexivity | reflexivity | reflexivity | vm_compute; eauto | reflexivity | reflexivity |].
  rewrite Hstored. vm_compute. reflexivity.
Defined.

(** * Two more properties of the later revision *)

(** X16: a request answered with 400 has had no effect: the response is
    the only call of the whole run, so the gateway was neither read nor
    written, nothing was logged and no derived computation was started; and
    the report had no flag set. *)
Theorem bad_request_has_no_effect (gw : Gateway) (now : Z) (body : value) (reply : reply) :
  response (trace (post_location gw now body)) = Some (400, reply) →
  post_location gw now body = Run [Respond 400 reply] (Ok tt) ∧
  truthy (field "flag" body) = false ∧
  (reply = Json 400 "Location data is invalid" ∨ reply = Json 400 "Devices data is invalid").
Proof.
  pose proof (post_location_run gw now body) as Hrun.
  destruct Hrun as [e'|message Hflag Hmessage| base rs Hflag Hloc Hbuilt| | |name message|name|
                    name document e'|name document|name document rs Hflag Hname Hget Hbuilt];
    cbn [outcome trace]; intros Hresponse; try discriminate.
  - injection Hresponse as <-. split_and!; [done..|].
    destruct Hmessage as [-> | ->]; auto.
  - rewrite response_head in Hresponse.
    by destruct (responses_written gw rs)
      as (status & rep & Hr & [(-> & _)|(-> & _)]); rewrite Hr in Hresponse.
  - rewrite response_head in Hresponse.
    change (responses (Get ?k :: ?t)) with (responses t) in Hresponse.
    by destruct (responses_written gw rs)
      as (status & rep & Hr & [(-> & _)|(-> & _)]); rewrite Hr in Hresponse.
Qed.

Lemma bad_request_has_no_effect_witness :
  post_location (flag_store ∅) 1000 (VObj {["devices" := VArr [device "d1" 5]]}) =
  Run [Respond 400 (Json 400 "Location data is invalid")] (Ok tt).
Proof.
  apply (bad_request_has_no_effect (flag_store ∅) 1000
           (VObj {["devices" := VArr [device "d1" 5]]}) (Json 400 "Location data is invalid")).
  reflexivity.
Defined.

(** X17: the route looks at three properties of the report only.  Two
    reports with the same [flag], [location] and [devices] have the same
    run, whatever else they carry. *)
Theorem only_flag_location_devices_matter (gw : Gateway) (now : Z)
    (body body' : gmap string value) :
  body' !!! "flag" = body !!! "flag" →
  body' !!! "location" = body !!! "location" →
  body' !!! "devices" = body !!! "devices" →
  post_location gw now (VObj body') = post_location gw now (VObj body).
Proof.
  intros Hflag Hlocation Hdevices.
  unfold post_location, location_route, handleFlaggedRequest.
  rewrite !(get_prop_obj _ body'), !(get_prop_obj _ body).
  by rewrite Hflag, Hlocation, Hdevices.
Qed.

Lemma only_flag_location_devices_matter_witness :
  post_location (flag_store ∅) 1000 (VObj (<["battery" := num 80]> direct_scenario)) =
  post_location (flag_store ∅) 1000 (VObj direct_scenario).
Proof.
  apply (only_flag_location_devices_matter (flag_store ∅) 1000 direct_scenario
           (<["battery" := num 80]> direct_scenario)); reflexivity.
Defined.
